(** * TableParserApp: the App component of [src/App.tsx]

    A shallow embedding of the biometric authentication ([isBiometryAvailable],
    [promptBiometry], [tryToAuthenticate]), of the spreadsheet download
    ([computeWidths], [fetchTable]) and of the per-sheet rendering
    callback of the component, with the properties of the written
    specification stated against them. *)

From Stdlib Require Import ZArith.
From stdpp Require Import base option list gmap strings pretty.

Local Open Scope Z_scope.

(** ** JavaScript values used by the component *)

(** A JavaScript array of numbers: a list of slots, a slot being either a
    value or a hole (which reads as [undefined]). *)
Abbreviation jsarray A := (list (option A)).

Module JsArray.

(** [a[i]]: [None] stands for [undefined], which is what a hole and an
    index past the end both read as. *)
Definition get {A} (a : jsarray A) (i : nat) : option A :=
  mjoin (a !! i).

(** [a[i] = v]: overwrites inside the array; at or past the end the array
    grows up to index [i], the skipped slots being holes. *)
Definition set {A} (a : jsarray A) (i : nat) (v : A) : jsarray A :=
  if decide (i < length a)%nat then <[i := Some v]> a
  else a ++ replicate (i - length a) None ++ [Some v].

End JsArray.

(** A cell of a sheet, [string | number].  The numbers of JavaScript are
    left abstract: the component only ever takes their textual form. *)
Inductive cell (number : Type) : Type :=
  | CString (s : string)
  | CNumber (n : number).
Arguments CString {number} s.
Arguments CNumber {number} n.

(** [!w] on a slot that holds a number or [undefined]. *)
Definition js_not (w : option Z) : bool :=
  match w with
  | None => true
  | Some v => v =? 0
  end.

(** [w < c] where [w] may be [undefined] ([undefined < c] is [false]). *)
Definition js_lt (w : option Z) (c : Z) : bool :=
  match w with
  | None => false
  | Some v => v <? c
  end.

Section Widths.

Context {number : Type}.
Variable Number_toString : number → string.

(** [row[i].toString()] *)
Definition cell_toString (c : cell number) : string :=
  match c with
  | CString s => s
  | CNumber n => Number_toString n
  end.

(** [10 + row[i].toString().length * 10]; string lengths stay far below
    2^53, so the arithmetic of doubles is exact and [Z] models it. *)
Definition charsWidth (c : cell number) : Z :=
  10 + Z.of_nat (String.length (cell_toString c)) * 10.

(** The body of the inner loop at index [i], [c] being [row[i]]. *)
Definition widen (widthArr : jsarray Z) (i : nat) (c : cell number)
  : jsarray Z :=
  if js_not (JsArray.get widthArr i) || js_lt (JsArray.get widthArr i) (charsWidth c)
  then JsArray.set widthArr i (charsWidth c)
  else widthArr.

(** [for (let i = ...; i < len; i++)] over the cells [row[i..]] that are
    still to be visited. *)
Fixpoint row_loop (widthArr : jsarray Z) (i : nat) (cells : list (cell number))
  : jsarray Z :=
  match cells with
  | [] => widthArr
  | c :: cells' => row_loop (widen widthArr i c) (S i) cells'
  end.

(** [for (let row of rows)] starting from [widthArr = []]. *)
Definition computeWidths (rows : list (list (cell number))) : jsarray Z :=
  foldl (λ widthArr row, row_loop widthArr 0 row) [] rows.

End Widths.

(** ** The state of the component and its collaborators *)

Inductive AuthState : Set :=
  | PENDING
  | NOT_SUPPORTED
  | AUTHENTICATED
  | UNAUTHENTICATED.

Global Instance AuthState_eq_dec : EqDecision AuthState.
Proof. solve_decision. Defined.

(** The value [tableData] holds for one sheet. *)
Record SheetData (number : Type) : Type := mkSheetData {
  widthArr : jsarray Z;
  rows : list (list (cell number));
}.
Arguments mkSheetData {number} widthArr rows.
Arguments widthArr {number} s.
Arguments rows {number} s.

(** The three [useState] cells of the component. *)
Record View (number : Type) : Type := mkView {
  authenticated : AuthState;
  tableData : gmap string (SheetData number);
  loading : bool;
}.
Arguments mkView {number} authenticated tableData loading.
Arguments authenticated {number} v.
Arguments tableData {number} v.
Arguments loading {number} v.

(** The state of a freshly mounted component. *)
Definition initialView {number} : View number := mkView PENDING ∅ false.

(** The component as a run of a handler leaves it: its state cells, and
    whether it is still mounted.  React unmounts the component when a
    render of it throws; the cells then are those of the last render that
    succeeded, and the setters no longer do anything. *)
Record World (number : Type) : Type := mkWorld {
  cells : View number;
  mounted : bool;
}.
Arguments mkWorld {number} cells mounted.
Arguments cells {number} w.
Arguments mounted {number} w.

(** The cells of a component are read through [cells]; a [View] where a
    [World] is expected is a component that is on screen with these
    cells. *)
Coercion cells : World >-> View.

Definition onScreen {number} (v : View number) : World number := mkWorld v true.
#[warning="-ambiguous-paths"]
Coercion onScreen : View >-> World.

(** [rows[0]] is defined. *)
Definition hasHeader {number} (sd : SheetData number) : bool :=
  match rows sd with
  | [] => false
  | _ :: _ => true
  end.

(** Building the screen from [tableData] does not throw: the callback of
    [Object.keys(tableData).map] reads [tableData[sheetName].rows[0].map]
    for every sheet name, which throws a [TypeError] for a sheet without
    rows. *)
Definition renders {number} (d : gmap string (SheetData number)) : bool :=
  bool_decide (map_Forall (λ _ sd, hasHeader sd = true) d).

(** How an asynchronous call ends: it returns a value or it throws. *)
Inductive Outcome (error A : Type) : Type :=
  | Returned (a : A)
  | Thrown (e : error).
Arguments Returned {error A} a.
Arguments Thrown {error A} e.

(** [XLSX.read] gives a workbook; [Sheets] lists its entries in the order
    in which [for ... in] enumerates them. *)
Record WorkBook (WorkSheet : Type) : Type := mkWorkBook {
  Sheets : list (string * WorkSheet);
}.
Arguments mkWorkBook {WorkSheet} Sheets.
Arguments Sheets {WorkSheet} w.

(** What the platform answers during one run of a handler:
    the biometric library, the download and the spreadsheet decoder. *)
Record Env (number error Response WorkSheet : Type) : Type := mkEnv {
  isSensorAvailable : Outcome error (option string * bool);
  simplePrompt : Outcome error bool;
  RNFetchBlob_fetch : Outcome error Response;
  Response_base64 : Response → Outcome error string;
  XLSX_read : string → Outcome error (WorkBook WorkSheet);
  sheet_to_json : WorkSheet → Outcome error (list (list (cell number)));
}.
Arguments mkEnv {number error Response WorkSheet}.
Arguments isSensorAvailable {number error Response WorkSheet} e.
Arguments simplePrompt {number error Response WorkSheet} e.
Arguments RNFetchBlob_fetch {number error Response WorkSheet} e.
Arguments Response_base64 {number error Response WorkSheet} e r.
Arguments XLSX_read {number error Response WorkSheet} e data.
Arguments sheet_to_json {number error Response WorkSheet} e sheet.

(** What a run does that can be observed from outside, in order. *)
Inductive Event (number error : Type) : Type :=
  | CallIsSensorAvailable
  | CallSimplePrompt (promptMessage : string)
  | CallFetch (method url : string)
  | ConsoleLog (message : string)
  | ConsoleWarn (message : string) (err : error)
  | ConsoleError (err : error)
  | AlertAlert (title message : string)
  | SetAuthenticated (s : AuthState)
  | SetTableData (d : gmap string (SheetData number))
  | SetLoading (b : bool).
Arguments CallIsSensorAvailable {number error}.
Arguments CallSimplePrompt {number error} promptMessage.
Arguments CallFetch {number error} method url.
Arguments ConsoleLog {number error} message.
Arguments ConsoleWarn {number error} message err.
Arguments ConsoleError {number error} err.
Arguments AlertAlert {number error} title message.
Arguments SetAuthenticated {number error} s.
Arguments SetTableData {number error} d.
Arguments SetLoading {number error} b.

(** The result of running a handler: how it ended, the component after
    it, and what it did. *)
Record Run (number error A : Type) : Type := mkRun {
  outcome : Outcome error A;
  view : World number;
  trace : list (Event number error);
}.
Arguments mkRun {number error A} outcome view trace.
Arguments outcome {number error A} r.
Arguments view {number error A} r.
Arguments trace {number error A} r.

(** ** The handlers of the component *)

Section App.

Context {number error Response WorkSheet : Type}.
Variable Number_toString : number → string.
(** The text of a caught value where it is appended to a string. *)
Variable error_toString : error → string.
(** What a render throws when it reads a property of [undefined]. *)
Variable TypeError : error.

(** An asynchronous computation of the component: it reads what the
    platform answers, updates the state cells, leaves a trace, and ends
    by returning or by throwing. *)
Definition M (A : Type) : Type :=
  Env number error Response WorkSheet → World number → Run number error A.

Definition ret {A} (a : A) : M A :=
  λ _ v, mkRun (Returned a) v [].

Definition bind {A B} (m : M A) (k : A → M B) : M B :=
  λ env v,
    match m env v with
    | mkRun (Returned a) v1 t1 =>
        match k a env v1 with
        | mkRun o v2 t2 => mkRun o v2 (t1 ++ t2)
        end
    | mkRun (Thrown e) v1 t1 => mkRun (Thrown e) v1 t1
    end.

Global Instance M_ret : MRet M := @ret.
Global Instance M_bind : MBind M := λ A B k m, bind m k.

(** [try { body } catch (err) { handler }] *)
Definition try_catch {A} (body : M A) (handler : error → M A) : M A :=
  λ env v,
    match body env v with
    | mkRun (Returned a) v1 t1 => mkRun (Returned a) v1 t1
    | mkRun (Thrown e) v1 t1 =>
        match handler e env v1 with
        | mkRun o v2 t2 => mkRun o v2 (t1 ++ t2)
        end
    end.

Definition emit (ev : Event number error) : M unit :=
  λ _ v, mkRun (Returned tt) v [ev].

(** [await] of a call to a collaborator: the answer of the platform,
    returned or thrown. *)
Definition await {A}
    (answer : Env number error Response WorkSheet → Outcome error A) : M A :=
  λ env v, mkRun (answer env) v [].

(** The value of the [authenticated] cell the handler was created with. *)
Definition get_authenticated : M AuthState :=
  λ _ v, mkRun (Returned (authenticated v)) v [].

(** The setters of the three cells.  A setter called on an unmounted
    component changes nothing.  On a mounted one the component is rendered
    again with the new value; [authenticated] and [loading] are not read
    by the sheet callback, so with them the render succeeds as the one
    before did. *)
Definition setAuthenticated (s : AuthState) : M unit :=
  λ _ w,
    if mounted w
    then mkRun (Returned tt) (mkWorld (mkView s (tableData w) (loading w)) true)
               [SetAuthenticated s]
    else mkRun (Returned tt) w [SetAuthenticated s].

Definition setLoading (b : bool) : M unit :=
  λ _ w,
    if mounted w
    then mkRun (Returned tt) (mkWorld (mkView (authenticated w) (tableData w) b) true)
               [SetLoading b]
    else mkRun (Returned tt) w [SetLoading b].

(** [setTableData(d)] on a mounted component renders it with [d]: when the
    render throws, the update is not committed, React unmounts the
    component, and the [TypeError] comes out of the call of the setter. *)
Definition setTableData (d : gmap string (SheetData number)) : M unit :=
  λ _ w,
    if mounted w
    then if renders d
         then mkRun (Returned tt)
                    (mkWorld (mkView (authenticated w) d (loading w)) true)
                    [SetTableData d]
         else mkRun (Thrown TypeError) (mkWorld (cells w) false) [SetTableData d]
    else mkRun (Returned tt) w [SetTableData d].

(** [for (let x in/of l) body] *)
Fixpoint for_each {A} (l : list A) (body : A → M unit) : M unit :=
  match l with
  | [] => mret tt
  | x :: l' => body x ;; for_each l' body
  end.

(** Template-literal text of a boolean and of [string | undefined]. *)
Definition bool_toString (b : bool) : string :=
  if b then "true" else "false".
Definition biometryType_toString (t : option string) : string :=
  default "undefined" t.

Definition isBiometryAvailable : M bool :=
  try_catch
    ('(biometryType, available) ←
       (emit CallIsSensorAvailable ;; await isSensorAvailable);
     emit (ConsoleLog ("Biometry check | Available: " +:+ bool_toString available
                       +:+ " Type: " +:+ biometryType_toString biometryType)) ;;
     mret available)
    (λ err,
       emit (ConsoleWarn "Biometry check failed: " err) ;;
       mret false).

Definition promptBiometry : M bool :=
  try_catch
    (success ← (emit (CallSimplePrompt "Confirm fingerprint") ;; await simplePrompt);
     mret success)
    (λ err,
       emit (ConsoleWarn "Biometry prompt failed: " err) ;;
       mret false).

Definition tryToAuthenticate : M unit :=
  available ← isBiometryAvailable;
  if available : bool then
    success ← promptBiometry;
    setAuthenticated (if success : bool then AUTHENTICATED else UNAUTHENTICATED)
  else
    setAuthenticated NOT_SUPPORTED.

Definition downloadUrl : string :=
  "https://drive.google.com/uc?export=download&id=1O6bmi4TqBhYl7sMn1gBT2gM4rKf8paFf".

(** The guard of [fetchTable]:
    [authenticated !== AUTHENTICATED && authenticated !== NOT_SUPPORTED]. *)
Definition notAllowed (auth : AuthState) : bool :=
  bool_decide (auth ≠ AUTHENTICATED) && bool_decide (auth ≠ NOT_SUPPORTED).

Definition fetchTable : M unit :=
  auth ← get_authenticated;
  if notAllowed auth then
    emit (AlertAlert "Auth error" "Seems like you are not authenticated!")
  else
    setLoading true ;;
    setTableData ∅ ;;
    try_catch
      (res ← (emit (CallFetch "GET" downloadUrl) ;; await RNFetchBlob_fetch);
       data ← await (λ env, Response_base64 env res);
       worksheet ← await (λ env, XLSX_read env data);
       for_each (Sheets worksheet) (λ '(sheetName, sheet),
         rows ← await (λ env, sheet_to_json env sheet);
         setTableData
           {[ sheetName := mkSheetData (computeWidths Number_toString rows) rows ]}))
      (λ err,
         emit (ConsoleError err) ;;
         emit (AlertAlert "Při načítání tabulky se vyskytla chyba"
                          ("Chyba: " +:+ error_toString err))) ;;
    setLoading false.

(** *** Rendering of one sheet *)

(** The props of a [<Td>] and of a [<Tr>] element. *)
Record TdElement : Type := mkTd {
  td_width : option Z;
  td_first : bool;
  td_key : nat;
  td_children : cell number;
}.

Record TrElement : Type := mkTr {
  tr_key : option nat;
  tr_first : bool;
  tr_backgroundColor : option string;
  tr_children : list TdElement;
}.

(** What the callback of [Object.keys(tableData).map] builds for a sheet:
    the title, the row of the header table, and the children of the
    data-rows table, the callback of [rows.map] returning [undefined]
    ([None]) for the rows it skips. *)
Record SheetElement : Type := mkSheetElement {
  sheet_key : nat;
  sheet_title : string;
  headerRow : TrElement;
  dataRows : list (option TrElement);
}.

(** [row.map((value, k) => <Td width={widthArr[k]} first={k === 0} key={k}>] *)
Definition renderCells (sd : SheetData number) (row : list (cell number))
  : list TdElement :=
  imap (λ k value, mkTd (JsArray.get (widthArr sd) k) (bool_decide (k = 0%nat)) k value)
       row.

(** The callback of [tableData[sheetName].rows.map]. *)
Definition renderDataRow (sd : SheetData number) (j : nat) (row : list (cell number))
  : option TrElement :=
  if bool_decide (j = 0%nat) || bool_decide (length row = 0%nat) then None
  else Some (mkTr (Some j) (bool_decide (j ≤ 1)%nat) None (renderCells sd row)).

(** The callback for one sheet name; [None] is the [TypeError] of reading
    a property of [undefined] (no such sheet, or no row at index 0). *)
Definition renderSheet (tableData : gmap string (SheetData number))
    (sheetName : string) (i : nat) : option SheetElement :=
  sd ← tableData !! sheetName;
  header ← rows sd !! 0%nat;
  Some (mkSheetElement i sheetName
          (mkTr None true (Some "#dddddd") (renderCells sd header))
          (imap (renderDataRow sd) (rows sd))).

(** React draws nothing for an [undefined] child. *)
Definition drawn (children : list (option TrElement)) : list TrElement :=
  omap id children.

End App.

(** ** Notions the properties are stated with *)

Section Columns.

Context {number : Type}.
Variable Number_toString : number → string.

(** The length of the text of a cell. *)
Definition cellLength (c : cell number) : nat :=
  String.length (cell_toString Number_toString c).

(** The cells found at column index [i], one for each row that has a
    cell there, in the order of the rows. *)
Definition column (rows : list (list (cell number))) (i : nat)
  : list (cell number) :=
  omap (λ row : list (cell number), row !! i) rows.

(** The longest text in column [i]. *)
Definition maxCellLength (rows : list (list (cell number))) (i : nat) : nat :=
  max_list_with cellLength (column rows i).

(** The length of the longest row ([0] when there is no row). *)
Definition longestRow (rows : list (list (cell number))) : nat :=
  max_list_with length rows.

(** Two dense width lists joined column by column: the larger width where
    both have one, and the width of the one that has it otherwise. *)
Fixpoint merge (ws cs : list Z) : list Z :=
  match ws, cs with
  | [], _ => cs
  | _, [] => ws
  | w :: ws', c :: cs' => Z.max w c :: merge ws' cs'
  end.

(** The width list of a set of rows, without holes. *)
Definition widths (rows : list (list (cell number))) : list Z :=
  foldl (λ acc row, merge acc (charsWidth Number_toString <$> row)) [] rows.

(** The width the longest text of a column asks for, if the column has a
    cell at all. *)
Definition columnWidth (col : list (cell number)) : option Z :=
  match col with
  | [] => None
  | _ => Some (10 + 10 * Z.of_nat (max_list_with cellLength col))
  end.

End Columns.

(** ** Notions the properties of the handlers are stated with *)

Section Observations.

Context {number error Response WorkSheet : Type}.
Variable Number_toString : number → string.

Definition isAlert (ev : Event number error) : bool :=
  match ev with
  | AlertAlert _ _ => true
  | _ => false
  end.

Definition isPrompt (ev : Event number error) : bool :=
  match ev with
  | CallSimplePrompt _ => true
  | _ => false
  end.

Definition isNetworkCall (ev : Event number error) : bool :=
  match ev with
  | CallFetch _ _ => true
  | _ => false
  end.

(** The call returned (it did not throw). *)
Definition is_Returned {A} (o : Outcome error A) : Prop :=
  match o with
  | Returned _ => True
  | Thrown _ => False
  end.

(** The values [tableData] is given in the course of a run, in order. *)
Definition assigned (tr : list (Event number error))
  : list (gmap string (SheetData number)) :=
  omap (λ ev, match ev with SetTableData d => Some d | _ => None end) tr.

(** The sensor check answers [available = false], or it fails. *)
Definition sensorUnavailable (env : Env number error Response WorkSheet) : Prop :=
  match isSensorAvailable env with
  | Returned (_, available) => available = false
  | Thrown _ => True
  end.

(** The same platform, the biometric prompt answering [p]. *)
Definition withPrompt (p : Outcome error bool)
    (env : Env number error Response WorkSheet)
  : Env number error Response WorkSheet :=
  mkEnv (isSensorAvailable env) p (RNFetchBlob_fetch env)
        (Response_base64 env) (XLSX_read env) (sheet_to_json env).

(** The workbook the download decodes to, if the request, the reading
    of its body and the decoding all succeed. *)
Definition workbookOf (env : Env number error Response WorkSheet)
  : option (WorkBook WorkSheet) :=
  match RNFetchBlob_fetch env with
  | Thrown _ => None
  | Returned res =>
      match Response_base64 env res with
      | Thrown _ => None
      | Returned data =>
          match XLSX_read env data with
          | Thrown _ => None
          | Returned worksheet => Some worksheet
          end
      end
  end.

(** The rows of each sheet, if every sheet converts to rows. *)
Fixpoint rowsOfSheets (env : Env number error Response WorkSheet)
    (sheets : list (string * WorkSheet))
  : option (list (string * list (list (cell number)))) :=
  match sheets with
  | [] => Some []
  | (sheetName, sheet) :: sheets' =>
      match sheet_to_json env sheet with
      | Thrown _ => None
      | Returned rows => cons (sheetName, rows) <$> rowsOfSheets env sheets'
      end
  end.

(** The mapping [fetchTable] builds for one sheet. *)
Definition sheetEntry (named : string * list (list (cell number)))
  : gmap string (SheetData number) :=
  {[ named.1 := mkSheetData (computeWidths Number_toString named.2) named.2 ]}.

(** The contents of the cells of a drawn row. *)
Definition cellsOf (tr : @TrElement number) : list (cell number) :=
  td_children <$> tr_children tr.

(** The rows of a sheet, with their indices, that are neither the row at
    index 0 nor empty. *)
Definition keptRows (rows : list (list (cell number)))
  : list (nat * list (cell number)) :=
  filter (λ jr, jr.1 ≠ 0%nat ∧ length jr.2 ≠ 0%nat) (imap pair rows).

End Observations.

(** ** Concrete platforms *)

Module Examples.

(** Whole numbers, printed in decimal. *)
Definition Number_toString (n : Z) : string := pretty n.

(** Thrown values are given by their text. *)
Definition TypeError : string :=
  "TypeError: undefined is not an object (evaluating 'rows[0].map')".

Definition rowsAB : list (list (cell Z)) :=
  [ [CString "A"; CString "B"]; [CString "x"; CString "yy"] ].

Definition rowsMixed : list (list (cell Z)) :=
  [ [CString "id"; CString "name"; CString "note"];
    [];
    [CNumber 1024; CString "Ada"];
    [CNumber 7] ].

(** A platform whose sheets are given by their rows. *)
Definition platform
    (sensor : Outcome string (option string * bool))
    (prompt : Outcome string bool)
    (download : Outcome string unit)
    (sheets : list (string * list (list (cell Z))))
  : Env Z string unit (list (list (cell Z))) :=
  mkEnv sensor prompt download
        (λ _, Returned "UEsDBBQABgAIAAAAIQA=")
        (λ _, Returned (mkWorkBook sheets))
        (λ sheet, Returned sheet).

Definition oneSheet : Env Z string unit (list (list (cell Z))) :=
  platform (Returned (Some "TouchID", true)) (Returned true) (Returned tt)
           [("Sheet1", rowsAB)].

Definition twoSheets : Env Z string unit (list (list (cell Z))) :=
  platform (Returned (Some "TouchID", true)) (Returned false) (Returned tt)
           [("Sheet1", rowsAB); ("Sheet2", rowsMixed)].

Definition noSheets : Env Z string unit (list (list (cell Z))) :=
  platform (Returned (Some "TouchID", true)) (Returned true) (Returned tt) [].

Definition noSensor : Env Z string unit (list (list (cell Z))) :=
  platform (Returned (None, false)) (Returned true) (Returned tt)
           [("Sheet1", rowsAB)].

Definition offline : Env Z string unit (list (list (cell Z))) :=
  platform (Thrown "No biometrics") (Thrown "cancelled")
           (Thrown "Network request failed")
           [("Sheet1", rowsAB)].

Definition signedIn : View Z := mkView AUTHENTICATED ∅ false.

Definition signedOut : View Z :=
  mkView UNAUTHENTICATED (sheetEntry Number_toString ("Sheet1", rowsAB)) false.

End Examples.

(** ** What a download stores and reports *)

Section FetchOutcome.

Context {number error Response WorkSheet : Type}.
Variable error_toString : error → string.
Variable TypeError : error.

(** The sheets the loop of [fetchTable] hands to [setTableData]: the
    sheets it converts to rows, up to and including the first one without
    rows (with which the render throws), and none from the first
    conversion that throws on. *)
Fixpoint attemptedSheets (env : Env number error Response WorkSheet)
    (sheets : list (string * WorkSheet))
  : list (string * list (list (cell number))) :=
  match sheets with
  | [] => []
  | (sheetName, sheet) :: sheets' =>
      match sheet_to_json env sheet with
      | Thrown _ => []
      | Returned [] => [(sheetName, [])]
      | Returned (row :: rows) =>
          (sheetName, row :: rows) :: attemptedSheets env sheets'
      end
  end.

(** The sheets whose update is committed: the attempted ones that have a
    row. *)
Fixpoint committedSheets (env : Env number error Response WorkSheet)
    (sheets : list (string * WorkSheet))
  : list (string * list (list (cell number))) :=
  match sheets with
  | [] => []
  | (sheetName, sheet) :: sheets' =>
      match sheet_to_json env sheet with
      | Thrown _ => []
      | Returned [] => []
      | Returned (row :: rows) =>
          (sheetName, row :: rows) :: committedSheets env sheets'
      end
  end.

(** What cuts the loop short: the value thrown by the first conversion
    that fails, or the [TypeError] of the render of the first sheet
    without rows, whichever comes first. *)
Fixpoint loopError (env : Env number error Response WorkSheet)
    (sheets : list (string * WorkSheet)) : option error :=
  match sheets with
  | [] => None
  | (_, sheet) :: sheets' =>
      match sheet_to_json env sheet with
      | Thrown err => Some err
      | Returned [] => Some TypeError
      | Returned (_ :: _) => loopError env sheets'
      end
  end.

(** The loop reaches a sheet without rows, so that the component is
    unmounted. *)
Fixpoint loopUnmounts (env : Env number error Response WorkSheet)
    (sheets : list (string * WorkSheet)) : bool :=
  match sheets with
  | [] => false
  | (_, sheet) :: sheets' =>
      match sheet_to_json env sheet with
      | Thrown _ => false
      | Returned [] => true
      | Returned (_ :: _) => loopUnmounts env sheets'
      end
  end.

(** What the [try] block of [fetchTable] throws, if it throws. *)
Definition fetchError (env : Env number error Response WorkSheet) : option error :=
  match RNFetchBlob_fetch env with
  | Thrown err => Some err
  | Returned res =>
      match Response_base64 env res with
      | Thrown err => Some err
      | Returned data =>
          match XLSX_read env data with
          | Thrown err => Some err
          | Returned worksheet => loopError env (Sheets worksheet)
          end
      end
  end.

(** The sheets a download hands to [setTableData], those it gets to
    store, and whether it leaves the component unmounted. *)
Definition attempted (env : Env number error Response WorkSheet)
  : list (string * list (list (cell number))) :=
  match workbookOf env with
  | None => []
  | Some worksheet => attemptedSheets env (Sheets worksheet)
  end.

Definition storedSheets (env : Env number error Response WorkSheet)
  : list (string * list (list (cell number))) :=
  match workbookOf env with
  | None => []
  | Some worksheet => committedSheets env (Sheets worksheet)
  end.

Definition unmounts (env : Env number error Response WorkSheet) : bool :=
  match workbookOf env with
  | None => false
  | Some worksheet => loopUnmounts env (Sheets worksheet)
  end.

(** What the [catch] block of [fetchTable] does with a thrown value. *)
Definition failureReport (err : option error) : list (Event number error) :=
  match err with
  | None => []
  | Some e =>
      [ConsoleError e;
       AlertAlert "Při načítání tabulky se vyskytla chyba"
                  ("Chyba: " +:+ error_toString e)]
  end.

Definition isConsoleError (ev : Event number error) : bool :=
  match ev with
  | ConsoleError _ => true
  | _ => false
  end.

Definition isSetAuthenticated (ev : Event number error) : bool :=
  match ev with
  | SetAuthenticated _ => true
  | _ => false
  end.

Definition isSensorCall (ev : Event number error) : bool :=
  match ev with
  | CallIsSensorAvailable => true
  | _ => false
  end.

(** The sensor check answers [available = true]. *)
Definition sensorAvailable (env : Env number error Response WorkSheet) : Prop :=
  ∃ biometryType : option string,
    isSensorAvailable env = Returned (biometryType, true).

End FetchOutcome.

(** ** The table components of [components/CustomTable] *)

Module CustomTable.

(** The value of a style property. *)
Inductive StyleValue : Type :=
  | Num (n : Z)
  | Str (s : string)
  | Undefined.

(** A style object: its properties, in the order they are written. *)
Abbreviation StyleObject := (list (string * StyleValue)).

(** The [style] prop of a [View]: one style object, or an array of them. *)
Inductive StyleProp : Type :=
  | Single (o : StyleObject)
  | Array (os : list StyleObject).

(** [StyleSheet.create({table, tr, td})] *)
Definition styles_table : StyleObject :=
  [("alignItems", Str "center"); ("justifyContent", Str "center")].

Definition styles_tr : StyleObject :=
  [("alignSelf", Str "stretch"); ("flexDirection", Str "row");
   ("borderBottomWidth", Num 1)].

Definition styles_td : StyleObject :=
  [("alignSelf", Str "stretch"); ("flexDirection", Str "row");
   ("minWidth", Num 1); ("padding", Num 5); ("borderRightWidth", Num 1)].

(** [<Text numberOfLines={..}>{children}</Text>] *)
Record TextElement (C : Type) : Type := mkText {
  numberOfLines : nat;
  text_children : C;
}.
Arguments mkText {C} numberOfLines text_children.
Arguments numberOfLines {C} t.
Arguments text_children {C} t.

(** [<View style={..}>{children}</View>] *)
Record ViewElement (C : Type) : Type := mkViewElement {
  style : StyleProp;
  view_children : C;
}.
Arguments mkViewElement {C} style view_children.
Arguments style {C} v.
Arguments view_children {C} v.

(** A prop that is an optional number, or an optional string, as a style
    value: an absent prop is [undefined]. *)
Definition numberProp (p : option Z) : StyleValue :=
  match p with
  | Some n => Num n
  | None => Undefined
  end.

Definition stringProp (p : option string) : StyleValue :=
  match p with
  | Some s => Str s
  | None => Undefined
  end.

(** [first ? 1 : 0], the prop [first] defaulting to [false]. *)
Definition borderOf (first : option bool) : StyleValue :=
  if default false first then Num 1 else Num 0.

Definition Table {C} (children : C) : ViewElement C :=
  mkViewElement (Single styles_table) children.

Definition Tr {C} (first : option bool) (backgroundColor : option string)
    (children : C) : ViewElement C :=
  mkViewElement
    (Array [styles_tr;
            [("borderTopWidth", borderOf first);
             ("backgroundColor", stringProp backgroundColor)]])
    children.

Definition Td {C} (width : option Z) (first : option bool) (children : C)
  : ViewElement (TextElement C) :=
  mkViewElement
    (Array [styles_td;
            [("width", numberProp width);
             ("borderLeftWidth", borderOf first)]])
    (mkText 1 children).

(** The property [key] of a style object, if it has it. *)
Fixpoint property (key : string) (o : StyleObject) : option StyleValue :=
  match o with
  | [] => None
  | (k, v) :: o' => if decide (k = key) then Some v else property key o'
  end.

(** The property [key] of a style array as React Native flattens it: the
    objects are merged in order, a later object overriding an earlier one
    property by property. *)
Fixpoint flattened (key : string) (os : list StyleObject) : option StyleValue :=
  match os with
  | [] => None
  | o :: os' =>
      match flattened key os' with
      | Some v => Some v
      | None => property key o
      end
  end.

(** The value a [View] ends up with for the style property [key]
    ([Undefined] when no style object has it). *)
Definition styleValue (key : string) (p : StyleProp) : StyleValue :=
  match p with
  | Single o => default Undefined (property key o)
  | Array os => default Undefined (flattened key os)
  end.

End CustomTable.

(** ** The screen the component returns *)

(** The handlers the buttons are given. *)
Inductive Handler : Set :=
  | OnTryToAuthenticate
  | OnFetchTable.

(** [<Button title={..} color={..} onPress={..}/>] *)
Record ButtonElement : Type := mkButton {
  button_title : string;
  button_color : option string;
  button_onPress : Handler;
}.

(** What stands in the place of the "Load table" button. *)
Inductive FetchControl : Type :=
  | ActivityIndicator (size : Z)
  | FetchButton (b : ButtonElement).

(** The element tree [App] returns, without the layout styles, which are
    constants: the status line, the "Authenticate" button if there is one,
    the spinner or the "Load table" button, and one view per sheet. *)
Record AppElement (number : Type) : Type := mkAppElement {
  biometryText : string;
  authenticateButton : option ButtonElement;
  fetchControl : FetchControl;
  sheetViews : list (@SheetElement number);
}.
Arguments mkAppElement {number} biometryText authenticateButton fetchControl sheetViews.
Arguments biometryText {number} a.
Arguments authenticateButton {number} a.
Arguments fetchControl {number} a.
Arguments sheetViews {number} a.

(** The text of a member of the [AuthState] enum. *)
Definition AuthState_toString (s : AuthState) : string :=
  match s with
  | PENDING => "PENDING"
  | NOT_SUPPORTED => "NOT_SUPPORTED"
  | AUTHENTICATED => "AUTHENTICATED"
  | UNAUTHENTICATED => "UNAUTHENTICATED"
  end.

(** A button press the user may attempt. *)
Inductive Press : Set :=
  | PressAuthenticate
  | PressLoadTable.

Section Screen.

Context {number error Response WorkSheet : Type}.
Variable Number_toString : number → string.
Variable error_toString : error → string.
Variable TypeError : error.
(** [Object.keys], which lists the sheet names of [tableData] in the
    order of the JavaScript engine. *)
Variable Object_keys : gmap string (SheetData number) → list string.

(** The body of the component after its hooks: [None] when building a
    sheet view throws. *)
Definition App (v : View number) : option (AppElement number) :=
  sheets ← mapM id (imap (λ i sheetName, renderSheet (tableData v) sheetName i)
                         (Object_keys (tableData v)));
  Some (mkAppElement
          ("AuthState: " +:+ AuthState_toString (authenticated v))
          (if bool_decide (authenticated v ≠ AUTHENTICATED)
           then Some (mkButton "Authenticate" None OnTryToAuthenticate)
           else None)
          (if loading v
           then ActivityIndicator 30
           else FetchButton (mkButton "Load table" (Some "limegreen") OnFetchTable))
          sheets).

(** What a button runs when pressed. *)
Definition handler (h : Handler) : M (number:=number) (error:=error)
                                     (Response:=Response) (WorkSheet:=WorkSheet) unit :=
  match h with
  | OnTryToAuthenticate => tryToAuthenticate
  | OnFetchTable => fetchTable Number_toString error_toString TypeError
  end.

(** The component after the user attempts a press, the platform
    answering [env] while the handler runs to its end: nothing happens
    when the component is no longer mounted or its screen does not show
    the button. *)
Definition press (p : Press) (env : Env number error Response WorkSheet)
    (w : World number) : World number :=
  if mounted w then
    match App w with
    | None => w
    | Some el =>
        match p with
        | PressAuthenticate =>
            match authenticateButton el with
            | Some b => view (handler (button_onPress b) env w)
            | None => w
            end
        | PressLoadTable =>
            match fetchControl el with
            | FetchButton b => view (handler (button_onPress b) env w)
            | ActivityIndicator _ => w
            end
        end
    end
  else w.

(** The effect run once after the component is mounted. *)
Definition mount (env : Env number error Response WorkSheet) : World number :=
  view (tryToAuthenticate env initialView).

(** The component after mounting and a series of presses, each handler
    running to its end before the next press. *)
Definition session (env0 : Env number error Response WorkSheet)
    (presses : list (Press * Env number error Response WorkSheet))
  : World number :=
  foldl (λ w pe, press pe.1 pe.2 w) (mount env0) presses.

(** The cells and rows of a sheet view as the table components draw
    them. *)
Definition drawTd (e : @TdElement number)
  : CustomTable.ViewElement (CustomTable.TextElement (cell number)) :=
  CustomTable.Td (td_width e) (Some (td_first e)) (td_children e).

Definition drawTr (e : @TrElement number)
  : CustomTable.ViewElement
      (list (CustomTable.ViewElement (CustomTable.TextElement (cell number)))) :=
  CustomTable.Tr (Some (tr_first e)) (tr_backgroundColor e)
                 (drawTd <$> tr_children e).

End Screen.

Module MoreExamples.

(** [Object.keys] for maps that hold at most one sheet. *)
Definition Object_keys (m : gmap string (SheetData Z)) : list string :=
  (map_to_list m).*1.

(** A workbook whose second sheet has no row. *)
Definition emptyLastSheet : Env Z string unit (list (list (cell Z))) :=
  Examples.platform (Returned (None, false)) (Returned true) (Returned tt)
                    [("Sheet1", Examples.rowsAB); ("Empty", [])].

(** A workbook whose second sheet has no row and whose third has. *)
Definition emptyMiddleSheet : Env Z string unit (list (list (cell Z))) :=
  Examples.platform (Returned (None, false)) (Returned true) (Returned tt)
                    [("Sheet1", Examples.rowsAB); ("Empty", []);
                     ("Sheet3", Examples.rowsMixed)].

(** A workbook whose second sheet fails to convert. *)
Definition brokenSecondSheet
  : Env Z string unit (option (list (list (cell Z)))) :=
  mkEnv (Returned (Some "FaceID", true)) (Thrown "user cancelled") (Returned tt)
        (λ _, Returned "UEsDBBQABgAIAAAAIQA=")
        (λ _, Returned (mkWorkBook [("Sheet1", Some Examples.rowsAB);
                                    ("Sheet2", None);
                                    ("Sheet3", Some Examples.rowsMixed)]))
        (λ sheet, match sheet with
                  | Some rows => Returned rows
                  | None => Thrown "Unsupported sheet"
                  end).

(** A table and a spinner left on screen by an earlier run. *)
Definition busy : View Z :=
  mkView AUTHENTICATED
         (sheetEntry Examples.Number_toString ("Old", Examples.rowsMixed)) true.

End MoreExamples.
(** ** Properties of [computeWidths] *)

Section WidthsFacts.

Context {number : Type}.
Variable Number_toString : number → string.

Local Abbreviation charsWidth := (charsWidth Number_toString).
Local Abbreviation widen := (widen Number_toString).
Local Abbreviation row_loop := (row_loop Number_toString).
Local Abbreviation computeWidths := (computeWidths Number_toString).
Local Abbreviation cellLength := (cellLength Number_toString).
Local Abbreviation maxCellLength := (maxCellLength Number_toString).
Local Abbreviation widths := (widths Number_toString).
Local Abbreviation columnWidth := (columnWidth Number_toString).

Lemma charsWidth_ge_10 (c : cell number) : 10 ≤ charsWidth c.
Proof. unfold charsWidth. lia. Qed.

Lemma get_dense (ws : list Z) (i : nat) :
  JsArray.get (Some <$> ws) i = ws !! i.
Proof.
  unfold JsArray.get. rewrite list_lookup_fmap.
  by destruct (ws !! i).
Qed.

(** Past the end of a dense array the loop body appends. *)
Lemma widen_end (pre : list Z) (c : cell number) :
  widen (Some <$> pre) (length pre) c = Some <$> (pre ++ [charsWidth c]).
Proof.
  unfold widen. rewrite get_dense.
  rewrite (lookup_ge_None_2 pre (length pre)) by lia. simpl.
  unfold JsArray.set. rewrite length_fmap.
  rewrite decide_False by lia.
  rewrite Nat.sub_diag. simpl. by rewrite fmap_app.
Qed.

(** Inside a dense array the loop body keeps the larger width. *)
Lemma widen_inside (pre : list Z) (w : Z) (ws : list Z) (c : cell number) :
  widen (Some <$> (pre ++ w :: ws)) (length pre) c
  = Some <$> (pre ++ Z.max w (charsWidth c) :: ws).
Proof.
  pose proof (charsWidth_ge_10 c) as Hc.
  unfold widen. rewrite get_dense, list_lookup_middle by done.
  simpl. unfold JsArray.set. rewrite length_fmap, length_app. simpl.
  destruct (Z.eqb_spec w 0) as [->|Hw0]; simpl.
  - rewrite decide_True by lia.
    rewrite <- list_fmap_insert.
    replace (length pre) with (length pre + 0)%nat at 1 by lia.
    rewrite insert_app_r. simpl. by rewrite Z.max_r by lia.
  - destruct (Z.ltb_spec w (charsWidth c)) as [Hlt|Hge].
    + rewrite decide_True by lia.
      rewrite <- list_fmap_insert.
      replace (length pre) with (length pre + 0)%nat at 1 by lia.
      rewrite insert_app_r. simpl. by rewrite Z.max_r by lia.
    + by rewrite Z.max_l by lia.
Qed.

Lemma merge_nil_r (ws : list Z) : merge ws [] = ws.
Proof. by destruct ws. Qed.

(** One pass of the inner loop over a dense array is a [merge]. *)
Lemma row_loop_dense (cells : list (cell number)) (pre ws : list Z) :
  row_loop (Some <$> (pre ++ ws)) (length pre) cells
  = Some <$> (pre ++ merge ws (charsWidth <$> cells)).
Proof.
  revert pre ws. induction cells as [|c cells IH]; intros pre ws; simpl.
  - by rewrite merge_nil_r.
  - destruct ws as [|w ws].
    + rewrite app_nil_r, widen_end.
      specialize (IH (pre ++ [charsWidth c]) []).
      rewrite app_nil_r, length_app in IH. simpl in IH.
      replace (S (length pre)) with (length pre + 1)%nat by lia.
      rewrite IH. simpl. by rewrite <- app_assoc.
    + rewrite widen_inside.
      specialize (IH (pre ++ [Z.max w (charsWidth c)]) ws).
      rewrite length_app in IH. simpl in IH.
      replace (S (length pre)) with (length pre + 1)%nat by lia.
      rewrite <- app_assoc in IH. simpl in IH. rewrite IH.
      by rewrite <- app_assoc.
Qed.

Lemma outer_loop_dense (rows : list (list (cell number))) (acc : list Z) :
  foldl (λ widthArr row, row_loop widthArr 0 row) (Some <$> acc) rows
  = Some <$> foldl (λ acc row, merge acc (charsWidth <$> row)) acc rows.
Proof.
  revert acc. induction rows as [|row rows IH]; intros acc; simpl; [done|].
  pose proof (row_loop_dense row [] acc) as Hrow.
  rewrite !app_nil_l in Hrow. change (length []) with 0%nat in Hrow.
  rewrite Hrow. apply IH.
Qed.

(** [computeWidths] never leaves a hole: it is the dense list [widths]. *)
Lemma computeWidths_dense (rows : list (list (cell number))) :
  computeWidths rows = Some <$> widths rows.
Proof. apply (outer_loop_dense rows []). Qed.

Lemma lookup_merge (ws cs : list Z) (i : nat) :
  merge ws cs !! i
  = union_with (λ a b, Some (Z.max a b)) (ws !! i) (cs !! i).
Proof.
  revert cs i. induction ws as [|w ws IH]; intros cs i.
  - simpl. by destruct (cs !! i).
  - destruct cs as [|c cs]; simpl.
    + by destruct ((w :: ws) !! i).
    + destruct i as [|i]; simpl; [done|]. apply IH.
Qed.

Lemma length_merge (ws cs : list Z) :
  length (merge ws cs) = (length ws `max` length cs)%nat.
Proof.
  revert cs. induction ws as [|w ws IH]; intros cs; [done|].
  destruct cs as [|c cs]; simpl; [done|]. by rewrite IH.
Qed.

Lemma widths_snoc (rows : list (list (cell number))) (row : list (cell number)) :
  widths (rows ++ [row]) = merge (widths rows) (charsWidth <$> row).
Proof. unfold widths. by rewrite foldl_snoc. Qed.

Lemma max_list_with_app {A} (f : A → nat) (l k : list A) :
  max_list_with f (l ++ k) = (max_list_with f l `max` max_list_with f k)%nat.
Proof. induction l as [|x l IH]; simpl; [done|]. rewrite IH. lia. Qed.

Lemma column_snoc (rows : list (list (cell number))) (row : list (cell number))
    (i : nat) :
  column (rows ++ [row]) i = column rows i ++ option_list (row !! i).
Proof.
  unfold column. rewrite omap_app. simpl. by destruct (row !! i).
Qed.

Lemma columnWidth_snoc (col : list (cell number)) (c : cell number) :
  columnWidth (col ++ [c])
  = union_with (λ a b, Some (Z.max a b)) (columnWidth col) (Some (charsWidth c)).
Proof.
  unfold columnWidth, charsWidth.
  destruct col as [|c0 col]; simpl.
  - f_equal. unfold cellLength. lia.
  - f_equal. rewrite max_list_with_app. simpl.
    unfold cellLength. lia.
Qed.

(** Entry [i] of the dense width list is the width column [i] asks for. *)
Lemma lookup_widths (rows : list (list (cell number))) (i : nat) :
  widths rows !! i = columnWidth (column rows i).
Proof.
  induction rows as [|row rows IH] using rev_ind; [done|].
  rewrite widths_snoc, lookup_merge, IH, column_snoc, list_lookup_fmap.
  destruct (row !! i) as [c|]; simpl.
  - by rewrite columnWidth_snoc.
  - rewrite app_nil_r. by destruct (columnWidth (column rows i)).
Qed.

Lemma length_widths (rows : list (list (cell number))) :
  length (widths rows) = longestRow rows.
Proof.
  unfold longestRow.
  induction rows as [|row rows IH] using rev_ind; [done|].
  rewrite widths_snoc, length_merge, IH, length_fmap, max_list_with_app.
  simpl. lia.
Qed.

Lemma computeWidths_lookup (rows : list (list (cell number))) (i : nat) :
  computeWidths rows !! i = Some <$> columnWidth (column rows i).
Proof. by rewrite computeWidths_dense, list_lookup_fmap, lookup_widths. Qed.

Lemma columnWidth_Permutation (col col' : list (cell number)) :
  col ≡ₚ col' → columnWidth col = columnWidth col'.
Proof.
  intros Hp. unfold columnWidth.
  destruct col as [|c col], col' as [|c' col']; try done.
  - by apply Permutation_nil_cons in Hp.
  - symmetry in Hp. by apply Permutation_nil_cons in Hp.
  - by rewrite Hp.
Qed.

Lemma column_skips_short_row (before after : list (list (cell number)))
    (row : list (cell number)) (i : nat) :
  (length row ≤ i)%nat →
  column (before ++ row :: after) i = column (before ++ after) i.
Proof.
  intros Hshort. unfold column. rewrite !omap_app. simpl.
  by rewrite (lookup_ge_None_2 row i) by lia.
Qed.

(** C1: [computeWidths] returns as many widths as the longest row has
    cells; the width at column index [i] is at least 10 plus 10 times the
    longest text found at index [i] among the rows that have a cell
    there; and a row too short to have a cell at index [i] has no effect
    on the width at index [i]. *)
Theorem computeWidths_fits_longest_text (rows : list (list (cell number))) :
  length (computeWidths rows) = longestRow rows
  ∧ (∀ i : nat, (i < longestRow rows)%nat →
       ∃ w : Z, computeWidths rows !! i = Some (Some w)
                ∧ 10 + 10 * Z.of_nat (maxCellLength rows i) ≤ w)
  ∧ (∀ (before after : list (list (cell number))) (row : list (cell number))
       (i : nat),
       (length row ≤ i)%nat →
       computeWidths (before ++ row :: after) !! i
       = computeWidths (before ++ after) !! i).
Proof.
  split; [|split].
  - by rewrite computeWidths_dense, length_fmap, length_widths.
  - intros i Hi.
    rewrite <- length_widths in Hi.
    apply lookup_lt_is_Some_2 in Hi as [w Hw].
    exists w. rewrite computeWidths_dense, list_lookup_fmap, Hw.
    split; [done|].
    rewrite lookup_widths in Hw. unfold maxCellLength.
    unfold columnWidth in Hw.
    destruct (column rows i) as [|c col]; [done|].
    injection Hw as <-. apply Z.le_refl.
  - intros before after row i Hshort.
    by rewrite !computeWidths_lookup, column_skips_short_row.
Qed.

(** C9: reordering the rows does not change what [computeWidths]
    returns. *)
Theorem computeWidths_Permutation (rows rows' : list (list (cell number))) :
  rows ≡ₚ rows' → computeWidths rows = computeWidths rows'.
Proof.
  intros Hp. apply list_eq. intros i.
  rewrite !computeWidths_lookup. f_equal.
  apply columnWidth_Permutation. unfold column. by rewrite Hp.
Qed.

End WidthsFacts.

Example computeWidths_rowsAB :
  computeWidths Examples.Number_toString Examples.rowsAB = [Some 20; Some 30].
Proof. reflexivity. Qed.

Example computeWidths_rowsMixed :
  computeWidths Examples.Number_toString Examples.rowsMixed
  = [Some 50; Some 50; Some 50].
Proof. vm_compute. reflexivity. Qed.

Lemma computeWidths_Permutation_witness :
  Examples.rowsMixed ≡ₚ reverse Examples.rowsMixed
  ∧ computeWidths Examples.Number_toString Examples.rowsMixed
    = computeWidths Examples.Number_toString (reverse Examples.rowsMixed).
Proof.
  split.
  - symmetry. apply reverse_Permutation.
  - apply computeWidths_Permutation. symmetry. apply reverse_Permutation.
Defined.

(** ** Properties of the biometric authentication *)

Section AuthFacts.

Context {number error Response WorkSheet : Type}.
Implicit Types (env : Env number error Response WorkSheet) (v : View number).

(** Unfolds the sequencing of the handlers down to the answers of the
    platform. *)
Ltac run_handler :=
  cbv [isBiometryAvailable promptBiometry tryToAuthenticate
       try_catch mbind M_bind bind mret M_ret ret emit await
       setAuthenticated outcome view trace onScreen mounted cells].

(** What the sensor check does, by what the platform answers. *)
Lemma isBiometryAvailable_run env v :
  isBiometryAvailable env v
  = match isSensorAvailable env with
    | Returned (biometryType, available) =>
        mkRun (Returned available) v
          [CallIsSensorAvailable;
           ConsoleLog ("Biometry check | Available: " +:+ bool_toString available
                       +:+ " Type: " +:+ biometryType_toString biometryType)]
    | Thrown err =>
        mkRun (Returned false) v
          [CallIsSensorAvailable; ConsoleWarn "Biometry check failed: " err]
    end.
Proof.
  run_handler. by destruct (isSensorAvailable env) as [[biometryType available]|err].
Qed.

(** What the prompt does, by what the platform answers. *)
Lemma promptBiometry_run env v :
  promptBiometry env v
  = match simplePrompt env with
    | Returned success =>
        mkRun (Returned success) v [CallSimplePrompt "Confirm fingerprint"]
    | Thrown err =>
        mkRun (Returned false) v
          [CallSimplePrompt "Confirm fingerprint";
           ConsoleWarn "Biometry prompt failed: " err]
    end.
Proof.
  run_handler. by destruct (simplePrompt env) as [success|err].
Qed.

(** C4: when the sensor check answers "not available" or fails, the
    state becomes [NOT_SUPPORTED], the biometric prompt is not invoked,
    and the run is the same whatever the prompt would have answered. *)
Theorem tryToAuthenticate_sensor_unavailable env v :
  sensorUnavailable env →
  authenticated (view (tryToAuthenticate env v)) = NOT_SUPPORTED
  ∧ existsb isPrompt (trace (tryToAuthenticate env v)) = false
  ∧ ∀ p : Outcome error bool,
      tryToAuthenticate (withPrompt p env) v = tryToAuthenticate env v.
Proof.
  destruct env as [sensor prompt download base64 read to_json].
  unfold sensorUnavailable. simpl. intros Hsensor.
  run_handler. cbv [withPrompt isSensorAvailable].
  destruct sensor as [[biometryType available]|err]; [subst available|];
    by repeat split.
Qed.

(** C5: when the sensor is available the biometric prompt is invoked, and
    the state becomes [AUTHENTICATED] if the prompt answers success, and
    [UNAUTHENTICATED] if it answers failure or if the call fails. *)
Theorem tryToAuthenticate_sensor_available env v (biometryType : option string) :
  isSensorAvailable env = Returned (biometryType, true) →
  existsb isPrompt (trace (tryToAuthenticate env v)) = true
  ∧ (simplePrompt env = Returned true →
     authenticated (view (tryToAuthenticate env v)) = AUTHENTICATED)
  ∧ (simplePrompt env = Returned false →
     authenticated (view (tryToAuthenticate env v)) = UNAUTHENTICATED)
  ∧ (∀ err : error, simplePrompt env = Thrown err →
     authenticated (view (tryToAuthenticate env v)) = UNAUTHENTICATED).
Proof.
  intros Hsensor. run_handler. rewrite Hsensor.
  destruct (simplePrompt env) as [[|]|err]; repeat split; done.
Qed.

(** C8: a failure of either biometric call is caught and logged as a
    warning, and the helper returns [false]; neither helper nor
    [tryToAuthenticate] ever throws or shows an alert. *)
Theorem biometric_failures_are_caught env v :
  (∀ err : error, isSensorAvailable env = Thrown err →
     isBiometryAvailable env v
     = mkRun (Returned false) v
         [CallIsSensorAvailable; ConsoleWarn "Biometry check failed: " err])
  ∧ (∀ err : error, simplePrompt env = Thrown err →
     promptBiometry env v
     = mkRun (Returned false) v
         [CallSimplePrompt "Confirm fingerprint";
          ConsoleWarn "Biometry prompt failed: " err])
  ∧ (is_Returned (outcome (isBiometryAvailable env v))
     ∧ existsb isAlert (trace (isBiometryAvailable env v)) = false)
  ∧ (is_Returned (outcome (promptBiometry env v))
     ∧ existsb isAlert (trace (promptBiometry env v)) = false)
  ∧ (outcome (tryToAuthenticate env v) = Returned tt
     ∧ existsb isAlert (trace (tryToAuthenticate env v)) = false).
Proof.
  split; [|split; [|split; [|split]]].
  - intros err Hsensor. by rewrite isBiometryAvailable_run, Hsensor.
  - intros err Hprompt. by rewrite promptBiometry_run, Hprompt.
  - rewrite isBiometryAvailable_run.
    by destruct (isSensorAvailable env) as [[biometryType available]|err].
  - rewrite promptBiometry_run.
    by destruct (simplePrompt env) as [success|err].
  - run_handler.
    destruct (isSensorAvailable env) as [[biometryType [|]]|err];
      [destruct (simplePrompt env) as [success|err]| |]; done.
Qed.

End AuthFacts.
(** ** Properties of [fetchTable] *)

Section FetchFacts.

Context {number error Response WorkSheet : Type}.
Variable Number_toString : number → string.
Variable error_toString : error → string.
Variable TypeError : error.
Implicit Types (env : Env number error Response WorkSheet) (v : View number).

Local Abbreviation fetchTable :=
  (fetchTable Number_toString error_toString TypeError).
Local Abbreviation computeWidths := (computeWidths Number_toString).
Local Abbreviation sheetEntry := (sheetEntry Number_toString).
Local Abbreviation failureReport := (failureReport error_toString).
Local Abbreviation fetchError := (fetchError TypeError).
Local Abbreviation loopError := (loopError TypeError).

(** Unfolds the sequencing of [fetchTable], leaving the loop alone. *)
Ltac run_fetch :=
  cbv [fetchTable get_authenticated setLoading setTableData
       try_catch mbind M_bind bind mret M_ret ret emit await
       outcome view trace onScreen mounted cells].

(** Splits on what the download and the decoder answer, and names the
    run of the loop over the sheets. *)
Ltac split_download env :=
  destruct (RNFetchBlob_fetch env) as [res|err];
  [ destruct (Response_base64 env res) as [data|err];
    [ destruct (XLSX_read env data) as [worksheet|err] | ] | ].

Lemma notAllowed_true (auth : AuthState) :
  notAllowed auth = true ↔ auth ≠ AUTHENTICATED ∧ auth ≠ NOT_SUPPORTED.
Proof. destruct auth; cbv; split; (done || intros [? ?]; done). Qed.

Lemma notAllowed_pending_or_unauthenticated (auth : AuthState) :
  notAllowed auth = true ↔ auth = PENDING ∨ auth = UNAUTHENTICATED.
Proof.
  destruct auth; cbv; split; try done; try (intros [?|?]; done); auto.
Qed.

(** The screen can be built from the empty mapping, and from the mapping
    of one sheet exactly when the sheet has a row. *)
Lemma renders_empty : renders (∅ : gmap string (SheetData number)) = true.
Proof. apply bool_decide_eq_true_2, map_Forall_empty. Qed.

Lemma renders_singleton (sheetName : string) (sd : SheetData number) :
  renders ({[ sheetName := sd ]} : gmap string (SheetData number)) = hasHeader sd.
Proof.
  unfold renders. destruct (hasHeader sd) eqn:Hsd.
  - apply bool_decide_eq_true_2. by rewrite map_Forall_singleton.
  - apply bool_decide_eq_false_2. rewrite map_Forall_singleton. congruence.
Qed.

(** A rejected call only shows the alert. *)
Lemma fetchTable_rejected env v :
  notAllowed (authenticated v) = true →
  fetchTable env v
  = mkRun (Returned tt) v
      [AlertAlert "Auth error" "Seems like you are not authenticated!"].
Proof.
  intros Hguard. run_fetch. by rewrite Hguard.
Qed.

Lemma default_last_cons {A} (d x : A) (l : list A) :
  default d (last (x :: l)) = default x (last l).
Proof.
  revert d x. induction l as [|y l IH]; intros d x; [done|].
  change (last (x :: y :: l)) with (last (y :: l)).
  by rewrite (IH d y), (IH x y).
Qed.

Lemma assigned_SetTableData (ds : list (gmap string (SheetData number))) :
  assigned (SetTableData (error:=error) <$> ds) = ds.
Proof. induction ds as [|d ds IH]; simpl; [done|]. by f_equal. Qed.

Lemma assigned_app (l k : list (Event number error)) :
  assigned (l ++ k) = assigned l ++ assigned k.
Proof. apply omap_app. Qed.

Lemma filter_SetTableData (P : Event number error → Prop)
    `{∀ ev, Decision (P ev)} (ds : list (gmap string (SheetData number))) :
  (∀ d, ¬ P (SetTableData d)) → filter P (SetTableData <$> ds) = [].
Proof.
  intros Hnot. induction ds as [|d ds IH]; [done|].
  rewrite fmap_cons, filter_cons, decide_False by apply Hnot. apply IH.
Qed.

Lemma existsb_SetTableData (f : Event number error → bool)
    (ds : list (gmap string (SheetData number))) :
  (∀ d, f (SetTableData d) = false) → existsb f (SetTableData <$> ds) = false.
Proof.
  intros Hnot. induction ds as [|d ds IH]; [done|].
  rewrite fmap_cons. simpl. rewrite Hnot. apply IH.
Qed.

(** The loop over the sheets, started on a mounted component: it stops at
    the first conversion that throws and at the first sheet without rows,
    whose render throws and unmounts the component. *)
Lemma for_each_sheets_run env (body : string * WorkSheet → M unit)
    (sheets : list (string * WorkSheet)) v :
  (∀ sheetName sheet rows v',
     sheet_to_json env sheet = Returned rows →
     body (sheetName, sheet) env (onScreen v')
     = match rows with
       | [] =>
           mkRun (Thrown TypeError) (mkWorld v' false)
                 [SetTableData (sheetEntry (sheetName, rows))]
       | _ :: _ =>
           mkRun (Returned tt)
                 (mkView (authenticated v') (sheetEntry (sheetName, rows)) (loading v'))
                 [SetTableData (sheetEntry (sheetName, rows))]
       end) →
  (∀ sheetName sheet err (w : World number),
     sheet_to_json env sheet = Thrown err →
     body (sheetName, sheet) env w = mkRun (Thrown err) w []) →
  for_each sheets body env (onScreen v)
  = mkRun (match loopError env sheets with
           | Some err => Thrown err
           | None => Returned tt
           end)
      (mkWorld
         (mkView (authenticated v)
                 (default (tableData v)
                          (last (sheetEntry <$> committedSheets env sheets)))
                 (loading v))
         (negb (loopUnmounts env sheets)))
      (SetTableData <$> (sheetEntry <$> attemptedSheets env sheets)).
Proof.
  intros Hok Hfail. revert v.
  induction sheets as [|[sheetName sheet] sheets IH]; intros v.
  - by destruct v.
  - simpl. cbv [mbind M_bind bind].
    destruct (sheet_to_json env sheet) as [[|row rows]|err] eqn:Hjson.
    + rewrite (Hok sheetName sheet [] v Hjson). by destruct v.
    + rewrite (Hok sheetName sheet (row :: rows) v Hjson).
      change (mkWorld ?x true) with (onScreen x).
      rewrite IH. simpl.
      f_equal. f_equal. f_equal. symmetry. apply default_last_cons.
    + rewrite (Hfail sheetName sheet err (onScreen v) Hjson). by destruct v.
Qed.

(** The whole run of a call that passes the guard. *)
Lemma fetchTable_run env v :
  notAllowed (authenticated v) = false →
  fetchTable env v
  = mkRun (Returned tt)
      (mkWorld
         (mkView (authenticated v)
                 (default ∅ (last (sheetEntry <$> storedSheets env)))
                 (unmounts env))
         (negb (unmounts env)))
      ([SetLoading true; SetTableData ∅; CallFetch "GET" downloadUrl]
       ++ (SetTableData <$> (sheetEntry <$> attempted env))
       ++ failureReport (fetchError env) ++ [SetLoading false]).
Proof.
  intros Hguard. run_fetch. rewrite Hguard, renders_empty.
  unfold storedSheets, attempted, unmounts, fetchError, workbookOf.
  destruct (RNFetchBlob_fetch env) as [res|err]; [|done].
  destruct (Response_base64 env res) as [data|err]; [|done].
  destruct (XLSX_read env data) as [worksheet|err]; [|done].
  match goal with
  | |- context [for_each ?l ?b env (mkWorld ?c true)] =>
      change (mkWorld c true) with (onScreen c);
      rewrite (for_each_sheets_run env b l c)
  end.
  - destruct (loopError env (Sheets worksheet)) as [err|],
             (loopUnmounts env (Sheets worksheet)); simpl;
      by rewrite <- ?app_assoc.
  - intros sheetName sheet rows v' Hjson.
    cbv beta iota delta [onScreen]. rewrite Hjson, renders_singleton.
    by destruct rows.
  - intros sheetName sheet err w Hjson. cbv beta iota. by rewrite Hjson.
Qed.

(** A download in which every sheet converts to rows and has a row hands
    all the sheets to [setTableData], stores them all, and leaves the
    component mounted. *)
Lemma loop_complete env (sheets : list (string * WorkSheet))
    (named : list (string * list (list (cell number)))) :
  rowsOfSheets env sheets = Some named →
  Forall (λ nr, nr.2 ≠ []) named →
  attemptedSheets env sheets = named
  ∧ committedSheets env sheets = named
  ∧ loopError env sheets = None
  ∧ loopUnmounts env sheets = false.
Proof.
  revert named. induction sheets as [|[sheetName sheet] sheets IH];
    intros named Hrows Hnamed.
  - by injection Hrows as <-.
  - simpl in *.
    destruct (sheet_to_json env sheet) as [rows|err]; [|done].
    destruct (rowsOfSheets env sheets) as [named'|]; [|done].
    injection Hrows as <-.
    apply Forall_cons in Hnamed as [Hrows Hnamed']. simpl in Hrows.
    destruct rows as [|row rows]; [done|].
    destruct (IH named' eq_refl Hnamed') as (-> & -> & -> & ->). done.
Qed.

Lemma workbookOf_Some env (book : WorkBook WorkSheet) :
  workbookOf env = Some book →
  attempted env = attemptedSheets env (Sheets book)
  ∧ storedSheets env = committedSheets env (Sheets book)
  ∧ unmounts env = loopUnmounts env (Sheets book)
  ∧ fetchError env = loopError env (Sheets book).
Proof.
  unfold attempted, storedSheets, unmounts, fetchError, workbookOf.
  destruct (RNFetchBlob_fetch env) as [res|err]; [|done].
  destruct (Response_base64 env res) as [data|err]; [|done].
  destruct (XLSX_read env data) as [worksheet|err]; [|done].
  by intros [= ->].
Qed.

Lemma size_sheetEntry (named : string * list (list (cell number))) :
  size (sheetEntry named) = 1%nat.
Proof. unfold sheetEntry. apply map_size_singleton. Qed.

(** Every value [fetchTable] gives to [tableData] has at most one key. *)
Lemma fetchTable_assigns_at_most_one_sheet env v :
  Forall (λ d : gmap string (SheetData number), size d ≤ 1)%nat
         (assigned (trace (fetchTable env v))).
Proof.
  destruct (notAllowed (authenticated v)) eqn:Hguard.
  { rewrite fetchTable_rejected by done. constructor. }
  rewrite fetchTable_run by done. cbn [trace].
  rewrite !assigned_app, assigned_SetTableData.
  apply Forall_app. split; [|apply Forall_app; split].
  - apply Forall_singleton. rewrite map_size_empty. lia.
  - apply Forall_fmap, Forall_forall. intros named _. simpl.
    by rewrite size_sheetEntry.
  - destruct (fetchError env) as [err|]; apply Forall_nil_2.
Qed.

(** The whole run when the download, the decoding and every conversion
    to rows succeed and every sheet has a row. *)
Lemma fetchTable_complete env v (book : WorkBook WorkSheet)
    (named : list (string * list (list (cell number)))) :
  notAllowed (authenticated v) = false →
  workbookOf env = Some book →
  rowsOfSheets env (Sheets book) = Some named →
  Forall (λ nr, nr.2 ≠ []) named →
  fetchTable env v
  = mkRun (Returned tt)
      (mkView (authenticated v) (default ∅ (last (sheetEntry <$> named))) false)
      ([SetLoading true; SetTableData ∅; CallFetch "GET" downloadUrl]
       ++ (SetTableData <$> (sheetEntry <$> named)) ++ [SetLoading false]).
Proof.
  intros Hguard Hbook Hrows Hnamed.
  rewrite fetchTable_run by done.
  destruct (workbookOf_Some env book Hbook) as (-> & -> & -> & ->).
  by destruct (loop_complete env (Sheets book) named Hrows Hnamed)
    as (-> & -> & -> & ->).
Qed.

(** C2 (amended): while [fetchTable] runs, each update of [tableData]
    replaces the whole mapping: the values it is given are the empty
    mapping and then one single-sheet mapping per sheet, none with more
    than one key.  When the loop over the sheets completes, which takes
    every sheet to convert to rows and to have at least one row (the
    render of a sheet without rows throws from the setter and cuts the
    loop), [tableData] holds exactly the last-processed sheet if the
    workbook has a sheet, and is empty if the workbook has none. *)
Theorem fetchTable_keeps_only_last_sheet env v (book : WorkBook WorkSheet)
    (named : list (string * list (list (cell number)))) :
  notAllowed (authenticated v) = false →
  workbookOf env = Some book →
  rowsOfSheets env (Sheets book) = Some named →
  Forall (λ nr, nr.2 ≠ []) named →
  assigned (trace (fetchTable env v)) = ∅ :: (sheetEntry <$> named)
  ∧ Forall (λ d : gmap string (SheetData number), size d ≤ 1)%nat
           (assigned (trace (fetchTable env v)))
  ∧ outcome (fetchTable env v) = Returned tt
  ∧ mounted (view (fetchTable env v)) = true
  ∧ (named = [] → tableData (view (fetchTable env v)) = ∅)
  ∧ (∀ (sheetName : string) (rows : list (list (cell number))),
       last named = Some (sheetName, rows) →
       tableData (view (fetchTable env v))
       = {[ sheetName := mkSheetData (computeWidths rows) rows ]}
       ∧ dom (tableData (view (fetchTable env v))) = {[ sheetName ]}).
Proof.
  intros Hguard Hbook Hrows Hnamed.
  split; [|split; [apply fetchTable_assigns_at_most_one_sheet|]];
    rewrite (fetchTable_complete env v book named) by done; simpl.
  - change (assigned (SetLoading true :: SetTableData ∅ :: ?l)) with (∅ :: assigned l).
    f_equal. rewrite assigned_app, assigned_SetTableData. apply app_nil_r.
  - split; [done|]. split; [done|]. split.
    + by intros ->.
    + intros sheetName rows Hlast. rewrite fmap_last, Hlast. simpl.
      unfold sheetEntry. simpl. split; [done|]. by rewrite dom_singleton_L.
Qed.

(** A call that passes the guard sets [loading], clears [tableData] and
    issues the request, in this order, whatever happens next, and it
    never throws. *)
Lemma fetchTable_allowed env v :
  notAllowed (authenticated v) = false →
  ∃ rest : list (Event number error),
    trace (fetchTable env v)
    = SetLoading true :: SetTableData ∅ :: CallFetch "GET" downloadUrl :: rest
    ∧ outcome (fetchTable env v) = Returned tt.
Proof.
  intros Hguard. rewrite fetchTable_run by done. by eexists.
Qed.

(** C3: while the state is [PENDING] or [UNAUTHENTICATED], [fetchTable]
    shows the alert and returns without any network request; and the call
    is rejected in this way exactly when the state is neither
    [AUTHENTICATED] nor [NOT_SUPPORTED]. *)
Theorem fetchTable_guard env v :
  (authenticated v = PENDING ∨ authenticated v = UNAUTHENTICATED →
     fetchTable env v
     = mkRun (Returned tt) v
         [AlertAlert "Auth error" "Seems like you are not authenticated!"]
     ∧ existsb isAlert (trace (fetchTable env v)) = true
     ∧ existsb isNetworkCall (trace (fetchTable env v)) = false)
  ∧ (existsb isNetworkCall (trace (fetchTable env v)) = false
     ↔ authenticated v ≠ AUTHENTICATED ∧ authenticated v ≠ NOT_SUPPORTED).
Proof.
  split.
  - intros Hstate. apply notAllowed_pending_or_unauthenticated in Hstate.
    by rewrite fetchTable_rejected.
  - rewrite <- notAllowed_true.
    destruct (notAllowed (authenticated v)) eqn:Hguard.
    + by rewrite fetchTable_rejected.
    + destruct (fetchTable_allowed env v Hguard) as (rest & -> & _).
      simpl. split; done.
Qed.

(** C6: when a call passes the guard and the download fails before any
    sheet is processed, the run ends normally with [tableData] empty,
    cleared at the start and not assigned again, and with [loading]
    back to [false]. *)
Theorem fetchTable_failed_download env v :
  notAllowed (authenticated v) = false →
  workbookOf env = None →
  outcome (fetchTable env v) = Returned tt
  ∧ tableData (view (fetchTable env v)) = ∅
  ∧ loading (view (fetchTable env v)) = false
  ∧ assigned (trace (fetchTable env v)) = [∅].
Proof.
  intros Hguard Hbook. unfold workbookOf in Hbook.
  run_fetch. rewrite Hguard.
  split_download env; done.
Qed.

(** C10: a call rejected by the guard changes no state cell: [loading],
    [tableData] and [authenticated] are what they were, and no setter is
    called. *)
Theorem fetchTable_rejected_changes_nothing env v :
  notAllowed (authenticated v) = true →
  view (fetchTable env v) = v
  ∧ loading (view (fetchTable env v)) = loading v
  ∧ tableData (view (fetchTable env v)) = tableData v
  ∧ trace (fetchTable env v)
    = [AlertAlert "Auth error" "Seems like you are not authenticated!"].
Proof.
  intros Hguard. by rewrite fetchTable_rejected.
Qed.

End FetchFacts.

(** ** Properties of the rendering of a sheet *)

Section RenderFacts.

Context {number : Type}.
Implicit Types (sd : SheetData number) (row : list (cell number)).

(** The cells of a drawn row show the values of the row, in order. *)
Lemma cells_renderCells sd row :
  td_children <$> renderCells sd row = row.
Proof.
  apply list_eq. intros k. unfold renderCells.
  rewrite list_lookup_fmap, list_lookup_imap.
  by destruct (row !! k).
Qed.

(** What the callback of [rows.map] gives for one row. *)
Lemma renderDataRow_kept sd (j : nat) row :
  j ≠ 0%nat → length row ≠ 0%nat →
  renderDataRow sd j row
  = Some (mkTr (Some j) (bool_decide (j ≤ 1)%nat) None (renderCells sd row)).
Proof.
  intros Hj Hrow. unfold renderDataRow.
  rewrite (bool_decide_eq_false_2 _ Hj), (bool_decide_eq_false_2 _ Hrow).
  done.
Qed.

Lemma renderDataRow_skipped sd (j : nat) row :
  j = 0%nat ∨ length row = 0%nat → renderDataRow sd j row = None.
Proof.
  intros Hskip. unfold renderDataRow.
  destruct Hskip as [Hj|Hrow].
  - by rewrite (bool_decide_eq_true_2 _ Hj).
  - rewrite (bool_decide_eq_true_2 _ Hrow). by rewrite orb_true_r.
Qed.

(** The drawn rows are the kept rows, whatever index the first one has. *)
Lemma drawn_imap_renderDataRow sd (g : nat → nat) (rows : list (list (cell number))) :
  (λ tr, (tr_key tr, cellsOf tr)) <$> drawn (imap (λ j, renderDataRow sd (g j)) rows)
  = (λ jr : nat * list (cell number), (Some jr.1, jr.2))
      <$> filter (λ jr, jr.1 ≠ 0%nat ∧ length jr.2 ≠ 0%nat)
                 (imap (λ j row, (g j, row)) rows).
Proof.
  revert g. induction rows as [|row rows IH]; intros g; [done|].
  rewrite !imap_cons, filter_cons. unfold drawn in *. simpl.
  specialize (IH (g ∘ S)). simpl in IH.
  destruct (decide (g 0%nat ≠ 0%nat ∧ length row ≠ 0%nat)) as [[Hj Hrow]|Hskip].
  - rewrite renderDataRow_kept by done. simpl.
    unfold cellsOf at 1. simpl. rewrite cells_renderCells.
    f_equal. apply IH.
  - rewrite renderDataRow_skipped; [apply IH|].
    destruct (decide (g 0%nat = 0%nat)); [by left|].
    destruct (decide (length row = 0%nat)); [by right|].
    by destruct Hskip.
Qed.

(** C7: for a sheet that has a row at index 0, the header table shows
    the cells of that row, and the data-rows table shows, in order,
    exactly the rows whose index is not 0 and whose length is not 0. *)
Theorem renderSheet_skips_header_and_empty_rows
    (tableData : gmap string (SheetData number)) (sheetName : string) (i : nat)
    sd (header : list (cell number)) :
  tableData !! sheetName = Some sd →
  rows sd !! 0%nat = Some header →
  ∃ el : SheetElement,
    renderSheet tableData sheetName i = Some el
    ∧ cellsOf (headerRow el) = header
    ∧ (λ tr, (tr_key tr, cellsOf tr)) <$> drawn (dataRows el)
      = (λ jr : nat * list (cell number), (Some jr.1, jr.2)) <$> keptRows (rows sd)
    ∧ ∀ (j : nat) row,
        rows sd !! j = Some row →
        ((∃ tr : TrElement,
            dataRows el !! j = Some (Some tr)
            ∧ tr_key tr = Some j ∧ cellsOf tr = row)
         ↔ j ≠ 0%nat ∧ length row ≠ 0%nat).
Proof.
  intros Hsheet Hheader. unfold renderSheet.
  rewrite Hsheet. simpl. rewrite Hheader. simpl.
  eexists. split; [done|]. simpl. split; [|split].
  - apply cells_renderCells.
  - apply (drawn_imap_renderDataRow sd id).
  - intros j row Hrow. rewrite list_lookup_imap, Hrow. simpl.
    split.
    + intros (tr & Htr & _). unfold renderDataRow in Htr.
      destruct (decide (j = 0%nat)) as [Hj|Hj].
      { by rewrite (bool_decide_eq_true_2 _ Hj) in Htr. }
      destruct (decide (length row = 0%nat)) as [Hlen|Hlen].
      { rewrite (bool_decide_eq_true_2 _ Hlen), orb_true_r in Htr. done. }
      done.
    + intros [Hj Hlen]. rewrite renderDataRow_kept by done.
      eexists. split; [done|]. split; [done|]. apply cells_renderCells.
Qed.

End RenderFacts.

(** ** The properties on concrete platforms *)

Section Concrete.

Import Examples.

Local Abbreviation fetchTable := (fetchTable Number_toString id TypeError).
Local Abbreviation computeWidths := (computeWidths Number_toString).

(** The end-to-end example: one sheet [[A, B], [x, yy]]. *)
Example fetchTable_oneSheet :
  tableData (view (fetchTable oneSheet signedIn))
  = {[ "Sheet1" := mkSheetData [Some 20; Some 30] rowsAB ]}.
Proof. vm_compute. reflexivity. Qed.

Example fetchTable_offline_trace :
  trace (fetchTable offline signedIn)
  = [SetLoading true; SetTableData ∅; CallFetch "GET" downloadUrl;
     ConsoleError "Network request failed";
     AlertAlert "Při načítání tabulky se vyskytla chyba"
                "Chyba: Network request failed";
     SetLoading false].
Proof. vm_compute. reflexivity. Qed.

(** The first press of "Load table" on a fresh component is rejected. *)
Example fetchTable_before_authentication :
  fetchTable oneSheet initialView
  = mkRun (Returned tt) initialView
      [AlertAlert "Auth error" "Seems like you are not authenticated!"].
Proof. vm_compute. reflexivity. Qed.

Example tryToAuthenticate_offline :
  tryToAuthenticate offline initialView
  = mkRun (Returned tt) (mkView NOT_SUPPORTED ∅ false)
      [CallIsSensorAvailable;
       ConsoleWarn "Biometry check failed: " "No biometrics";
       SetAuthenticated NOT_SUPPORTED].
Proof. vm_compute. reflexivity. Qed.

Example tryToAuthenticate_refused :
  tryToAuthenticate twoSheets initialView
  = mkRun (Returned tt) (mkView UNAUTHENTICATED ∅ false)
      [CallIsSensorAvailable;
       ConsoleLog "Biometry check | Available: true Type: TouchID";
       CallSimplePrompt "Confirm fingerprint";
       SetAuthenticated UNAUTHENTICATED].
Proof. vm_compute. reflexivity. Qed.

(** A sheet without any row has no [rows[0]]: the callback throws. *)
Example renderSheet_sheet_without_rows :
  renderSheet (sheetEntry Number_toString ("Sheet1", [])) "Sheet1" 0 = None.
Proof. vm_compute. reflexivity. Qed.

(** With a workbook that has no sheet the loop completes at once and
    [tableData] stays empty: it does not hold one key. *)
Lemma fetchTable_no_sheets_no_key :
  notAllowed (authenticated signedIn) = false
  ∧ workbookOf noSheets = Some (mkWorkBook [])
  ∧ outcome (fetchTable noSheets signedIn) = Returned tt
  ∧ tableData (view (fetchTable noSheets signedIn)) = ∅
  ∧ size (tableData (view (fetchTable noSheets signedIn))) ≠ 1%nat.
Proof. vm_compute. repeat split; done. Qed.

Lemma fetchTable_keeps_only_last_sheet_witness :
  notAllowed (authenticated signedIn) = false
  ∧ workbookOf twoSheets
    = Some (mkWorkBook [("Sheet1", rowsAB); ("Sheet2", rowsMixed)])
  ∧ rowsOfSheets twoSheets [("Sheet1", rowsAB); ("Sheet2", rowsMixed)]
    = Some [("Sheet1", rowsAB); ("Sheet2", rowsMixed)]
  ∧ Forall (λ nr : string * list (list (cell Z)), nr.2 ≠ [])
           [("Sheet1", rowsAB); ("Sheet2", rowsMixed)]
  ∧ tableData (view (fetchTable twoSheets signedIn))
    = {[ "Sheet2" := mkSheetData (computeWidths rowsMixed) rowsMixed ]}.
Proof.
  assert (Forall (λ nr : string * list (list (cell Z)), nr.2 ≠ [])
                 [("Sheet1", rowsAB); ("Sheet2", rowsMixed)]) as Hnamed.
  { repeat (apply Forall_cons; split; [discriminate|]). apply Forall_nil_2. }
  split; [reflexivity|]. split; [reflexivity|]. split; [reflexivity|].
  split; [exact Hnamed|].
  pose proof (fetchTable_keeps_only_last_sheet Number_toString id TypeError
                twoSheets signedIn
                (mkWorkBook [("Sheet1", rowsAB); ("Sheet2", rowsMixed)])
                [("Sheet1", rowsAB); ("Sheet2", rowsMixed)]
                eq_refl eq_refl eq_refl Hnamed) as (_ & _ & _ & _ & _ & Hlast).
  exact (proj1 (Hlast "Sheet2" rowsMixed eq_refl)).
Defined.

Lemma tryToAuthenticate_sensor_unavailable_witness :
  sensorUnavailable noSensor
  ∧ authenticated (view (tryToAuthenticate noSensor initialView)) = NOT_SUPPORTED
  ∧ existsb isPrompt (trace (tryToAuthenticate noSensor initialView)) = false.
Proof.
  split; [reflexivity|].
  pose proof (tryToAuthenticate_sensor_unavailable noSensor initialView eq_refl)
    as (Hstate & Hprompt & _).
  exact (conj Hstate Hprompt).
Defined.

Lemma tryToAuthenticate_sensor_available_witness :
  isSensorAvailable oneSheet = Returned (Some "TouchID", true)
  ∧ simplePrompt oneSheet = Returned true
  ∧ authenticated (view (tryToAuthenticate oneSheet initialView)) = AUTHENTICATED.
Proof.
  split; [reflexivity|]. split; [reflexivity|].
  pose proof (tryToAuthenticate_sensor_available oneSheet initialView
                (Some "TouchID") eq_refl) as (_ & Hsuccess & _).
  exact (Hsuccess eq_refl).
Defined.

Lemma fetchTable_failed_download_witness :
  notAllowed (authenticated signedIn) = false
  ∧ workbookOf offline = None
  ∧ tableData (view (fetchTable offline signedIn)) = ∅
  ∧ loading (view (fetchTable offline signedIn)) = false.
Proof.
  split; [reflexivity|]. split; [reflexivity|].
  pose proof (fetchTable_failed_download Number_toString id TypeError offline signedIn
                eq_refl eq_refl) as (_ & Hdata & Hloading & _).
  exact (conj Hdata Hloading).
Defined.

Lemma fetchTable_rejected_changes_nothing_witness :
  notAllowed (authenticated signedOut) = true
  ∧ view (fetchTable oneSheet signedOut) = signedOut.
Proof.
  split; [reflexivity|].
  exact (proj1 (fetchTable_rejected_changes_nothing Number_toString id TypeError
                  oneSheet signedOut eq_refl)).
Defined.

Lemma renderSheet_skips_header_and_empty_rows_witness :
  sheetEntry Number_toString ("Sheet2", rowsMixed) !! "Sheet2"
  = Some (mkSheetData (computeWidths rowsMixed) rowsMixed)
  ∧ rowsMixed !! 0%nat = Some [CString "id"; CString "name"; CString "note"]
  ∧ ∃ el : SheetElement,
      renderSheet (sheetEntry Number_toString ("Sheet2", rowsMixed)) "Sheet2" 0
      = Some el
      ∧ cellsOf (headerRow el) = [CString "id"; CString "name"; CString "note"]
      ∧ (λ tr, (tr_key tr, cellsOf tr)) <$> drawn (dataRows el)
        = [ (Some 2%nat, [CNumber 1024; CString "Ada"]);
            (Some 3%nat, [CNumber 7]) ].
Proof.
  split; [reflexivity|]. split; [reflexivity|].
  destruct (renderSheet_skips_header_and_empty_rows
              (sheetEntry Number_toString ("Sheet2", rowsMixed)) "Sheet2" 0
              (mkSheetData (computeWidths rowsMixed) rowsMixed)
              [CString "id"; CString "name"; CString "note"]
              eq_refl eq_refl) as (el & Hel & Hheader & Hrows & _).
  exists el. split; [exact Hel|]. split; [exact Hheader|]. exact Hrows.
Defined.

End Concrete.

(** ** More on [computeWidths] *)

Section MoreWidthsFacts.

Context {number : Type}.
Variable Number_toString : number → string.

Local Abbreviation computeWidths := (computeWidths Number_toString).
Local Abbreviation cellLength := (cellLength Number_toString).
Local Abbreviation maxCellLength := (maxCellLength Number_toString).
Local Abbreviation columnWidth := (columnWidth Number_toString).

Lemma computeWidths_get (rows : list (list (cell number))) (i : nat) :
  JsArray.get (computeWidths rows) i = columnWidth (column rows i).
Proof.
  unfold JsArray.get. rewrite computeWidths_lookup.
  by destruct (columnWidth (column rows i)).
Qed.

Lemma columnWidth_None (col : list (cell number)) :
  columnWidth col = None ↔ col = [].
Proof. by destruct col. Qed.

Lemma column_nil (rows : list (list (cell number))) (i : nat) :
  column rows i = [] ↔ (longestRow rows ≤ i)%nat.
Proof.
  rewrite <- columnWidth_None, <- lookup_widths.
  rewrite <- (length_widths Number_toString).
  apply lookup_ge_None.
Qed.

Lemma column_app (rows1 rows2 : list (list (cell number))) (i : nat) :
  column (rows1 ++ rows2) i = column rows1 i ++ column rows2 i.
Proof. apply omap_app. Qed.

Lemma columnWidth_app (col1 col2 : list (cell number)) :
  columnWidth (col1 ++ col2)
  = match columnWidth col1, columnWidth col2 with
    | Some a, Some b => Some (Z.max a b)
    | Some a, None => Some a
    | None, o => o
    end.
Proof.
  destruct col1 as [|c1 col1].
  { rewrite app_nil_l. by destruct (columnWidth col2). }
  destruct col2 as [|c2 col2]; [by rewrite app_nil_r|].
  unfold columnWidth. simpl. f_equal.
  rewrite max_list_with_app. simpl. lia.
Qed.

Lemma elem_of_column (rows : list (list (cell number))) (i : nat) (c : cell number) :
  c ∈ column rows i ↔ ∃ row, row ∈ rows ∧ row !! i = Some c.
Proof. unfold column. apply list_elem_of_omap. Qed.

Lemma max_list_with_le {A} (f : A → nat) (l : list A) (n : nat) :
  (max_list_with f l ≤ n)%nat ↔ ∀ x, x ∈ l → (f x ≤ n)%nat.
Proof.
  induction l as [|y l IH]; simpl.
  - split; [intros _ x Hx; by apply elem_of_nil in Hx | lia].
  - split.
    + intros Hmax x Hx. apply elem_of_cons in Hx as [->|Hx]; [lia|].
      apply IH; [lia|done].
    + intros Hall. apply Nat.max_lub.
      * apply Hall. by left.
      * apply IH. intros x Hx. apply Hall. by right.
Qed.

Lemma max_list_with_same_elements {A} (f : A → nat) (l k : list A) :
  (∀ x, x ∈ l ↔ x ∈ k) → max_list_with f l = max_list_with f k.
Proof.
  intros Hsame. apply Nat.le_antisymm; apply max_list_with_le; intros x Hx.
  - apply Hsame in Hx. by apply (max_list_with_le f k).
  - apply Hsame in Hx. by apply (max_list_with_le f l).
Qed.

(** X1: the array [computeWidths] returns has no hole and as many entries
    as the longest row has cells, entry [i] being exactly 10 plus 10 times
    the longest text of column [i]. *)
Theorem computeWidths_closed_form (rows : list (list (cell number))) :
  computeWidths rows
  = (λ i : nat, Some (10 + 10 * Z.of_nat (maxCellLength rows i)))
      <$> seq 0 (longestRow rows).
Proof.
  apply list_eq. intros i.
  rewrite computeWidths_lookup, list_lookup_fmap.
  destruct (decide (i < longestRow rows)%nat) as [Hi|Hi].
  - rewrite lookup_seq_lt by done. simpl.
    unfold columnWidth, maxCellLength.
    destruct (column rows i) as [|c col] eqn:Hcol; [|done].
    apply column_nil in Hcol. lia.
  - rewrite lookup_seq_ge by lia.
    assert (column rows i = []) as -> by (apply column_nil; lia).
    done.
Qed.

(** X2: the widths of two row lists put together are, column by column,
    the larger of the two widths, or the only one there is. *)
Theorem computeWidths_app (rows1 rows2 : list (list (cell number))) (i : nat) :
  JsArray.get (computeWidths (rows1 ++ rows2)) i
  = match JsArray.get (computeWidths rows1) i, JsArray.get (computeWidths rows2) i with
    | Some a, Some b => Some (Z.max a b)
    | Some a, None => Some a
    | None, o => o
    end.
Proof. by rewrite !computeWidths_get, column_app, columnWidth_app. Qed.

(** X3: rows added to a sheet, anywhere in it, never remove a column and
    never make one narrower. *)
Theorem computeWidths_grows (rows rows' : list (list (cell number)))
    (i : nat) (w : Z) :
  rows ⊆+ rows' →
  JsArray.get (computeWidths rows) i = Some w →
  ∃ w' : Z, JsArray.get (computeWidths rows') i = Some w' ∧ w ≤ w'.
Proof.
  intros Hsub Hw. apply submseteq_Permutation in Hsub as [more Hperm].
  rewrite computeWidths_get in *.
  assert (column rows' i ≡ₚ column (rows ++ more) i) as Hcol.
  { unfold column. by rewrite Hperm. }
  rewrite (columnWidth_Permutation _ _ _ Hcol), column_app, columnWidth_app, Hw.
  destruct (columnWidth (column more i)) as [b|]; eexists; split; (done || lia).
Qed.

(** X4: the widths depend only on which rows occur in the sheet, not on
    how often or in which order. *)
Theorem computeWidths_same_rows (rows rows' : list (list (cell number))) :
  (∀ row, row ∈ rows ↔ row ∈ rows') →
  computeWidths rows = computeWidths rows'.
Proof.
  intros Hsame. apply list_eq. intros i.
  rewrite !computeWidths_lookup. f_equal.
  assert (∀ c, c ∈ column rows i ↔ c ∈ column rows' i) as Hcol.
  { intros c. rewrite !elem_of_column. by setoid_rewrite Hsame. }
  unfold columnWidth.
  destruct (column rows i) as [|c col], (column rows' i) as [|c' col'].
  - done.
  - exfalso. eapply elem_of_nil, Hcol. by left.
  - exfalso. eapply elem_of_nil, Hcol. by left.
  - do 4 f_equal. by apply max_list_with_same_elements.
Qed.

End MoreWidthsFacts.

(** ** More on [fetchTable] *)

Section MoreFetchFacts.

Context {number error Response WorkSheet : Type}.
Variable Number_toString : number → string.
Variable error_toString : error → string.
Variable TypeError : error.
Implicit Types (env : Env number error Response WorkSheet) (v : View number).

Local Abbreviation fetchTable :=
  (fetchTable Number_toString error_toString TypeError).
Local Abbreviation computeWidths := (computeWidths Number_toString).
Local Abbreviation sheetEntry := (sheetEntry Number_toString).
Local Abbreviation failureReport := (failureReport error_toString).
Local Abbreviation fetchError := (fetchError TypeError).
Local Abbreviation loopError := (loopError TypeError).
Local Abbreviation fetchTable_run :=
  (fetchTable_run Number_toString error_toString TypeError).
Local Abbreviation fetchTable_rejected :=
  (fetchTable_rejected Number_toString error_toString TypeError).

(** The component after a call. *)
Lemma fetchTable_view env v :
  view (fetchTable env v)
  = if notAllowed (authenticated v) then onScreen v
    else mkWorld
           (mkView (authenticated v)
                   (default ∅ (last (sheetEntry <$> storedSheets env)))
                   (unmounts env))
           (negb (unmounts env)).
Proof.
  destruct (notAllowed (authenticated v)) eqn:Hguard.
  - by rewrite fetchTable_rejected.
  - by rewrite fetchTable_run.
Qed.

Lemma size_last_sheetEntry (named : list (string * list (list (cell number)))) :
  (size (default ∅ (last (sheetEntry <$> named))) ≤ 1)%nat.
Proof.
  rewrite fmap_last. destruct (last named) as [[sheetName rows]|]; simpl.
  - unfold sheetEntry. by rewrite map_size_singleton.
  - rewrite map_size_empty. lia.
Qed.

(** The loop when the sheets before some sheet convert and have rows. *)
Lemma loop_prefix env (before after : list (string * WorkSheet))
    (sheetName : string) (sheet : WorkSheet)
    (named : list (string * list (list (cell number)))) :
  rowsOfSheets env before = Some named →
  Forall (λ nr, nr.2 ≠ []) named →
  attemptedSheets env (before ++ (sheetName, sheet) :: after)
  = named ++ attemptedSheets env ((sheetName, sheet) :: after)
  ∧ committedSheets env (before ++ (sheetName, sheet) :: after)
    = named ++ committedSheets env ((sheetName, sheet) :: after)
  ∧ loopError env (before ++ (sheetName, sheet) :: after)
    = loopError env ((sheetName, sheet) :: after)
  ∧ loopUnmounts env (before ++ (sheetName, sheet) :: after)
    = loopUnmounts env ((sheetName, sheet) :: after).
Proof.
  revert named. induction before as [|[name0 sheet0] before IH];
    intros named Hbefore Hnamed.
  - by injection Hbefore as <-.
  - simpl in Hbefore.
    rewrite <- app_comm_cons.
    simpl.
    destruct (sheet_to_json env sheet0) as [rows0|err0]; [|done].
    destruct (rowsOfSheets env before) as [named'|]; [|done].
    injection Hbefore as <-.
    apply Forall_cons in Hnamed as [Hrows0 Hnamed']. simpl in Hrows0.
    destruct rows0 as [|row0 rows0]; [done|].
    destruct (IH named' eq_refl Hnamed') as (-> & -> & -> & ->). done.
Qed.

(** X5: when a sheet fails to convert to rows, the sheets before it
    having rows, the loop stops there: the sheets before it were stored
    one after the other, so [tableData] ends with the last of them (or
    empty if there is none), the sheets after it are never stored, the
    failure is logged and shown in an alert, and [loading] is reset. *)
Theorem fetchTable_conversion_failure env v (book : WorkBook WorkSheet)
    (before after : list (string * WorkSheet)) (sheetName : string)
    (sheet : WorkSheet) (err : error)
    (named : list (string * list (list (cell number)))) :
  notAllowed (authenticated v) = false →
  workbookOf env = Some book →
  Sheets book = before ++ (sheetName, sheet) :: after →
  rowsOfSheets env before = Some named →
  Forall (λ nr, nr.2 ≠ []) named →
  sheet_to_json env sheet = Thrown err →
  fetchTable env v
  = mkRun (Returned tt)
      (mkView (authenticated v) (default ∅ (last (sheetEntry <$> named))) false)
      ([SetLoading true; SetTableData ∅; CallFetch "GET" downloadUrl]
       ++ (SetTableData <$> (sheetEntry <$> named))
       ++ [ConsoleError err;
           AlertAlert "Při načítání tabulky se vyskytla chyba"
                      ("Chyba: " +:+ error_toString err);
           SetLoading false]).
Proof.
  intros Hguard Hbook Hsheets Hbefore Hnamed Hsheet.
  rewrite fetchTable_run by done.
  destruct (workbookOf_Some TypeError env book Hbook) as (-> & -> & -> & ->).
  rewrite Hsheets.
  destruct (loop_prefix env before after sheetName sheet named Hbefore Hnamed)
    as (-> & -> & -> & ->).
  simpl. rewrite Hsheet. by rewrite !app_nil_r.
Qed.

(** X24: when the loop reaches a sheet that converts to no row at all, the
    sheets before it having rows, the render started by [setTableData]
    throws: the update is not committed, so [tableData] stays at the last
    sheet before it (or empty), the component is unmounted, the
    [TypeError] is logged and shown in an alert, the sheets after it are
    never converted, and the final [setLoading(false)] changes nothing,
    [loading] staying [true]. *)
Theorem fetchTable_sheet_without_rows env v (book : WorkBook WorkSheet)
    (before after : list (string * WorkSheet)) (sheetName : string)
    (sheet : WorkSheet)
    (named : list (string * list (list (cell number)))) :
  notAllowed (authenticated v) = false →
  workbookOf env = Some book →
  Sheets book = before ++ (sheetName, sheet) :: after →
  rowsOfSheets env before = Some named →
  Forall (λ nr, nr.2 ≠ []) named →
  sheet_to_json env sheet = Returned [] →
  fetchTable env v
  = mkRun (Returned tt)
      (mkWorld
         (mkView (authenticated v) (default ∅ (last (sheetEntry <$> named))) true)
         false)
      ([SetLoading true; SetTableData ∅; CallFetch "GET" downloadUrl]
       ++ (SetTableData <$> (sheetEntry <$> named))
       ++ [SetTableData (sheetEntry (sheetName, []));
           ConsoleError TypeError;
           AlertAlert "Při načítání tabulky se vyskytla chyba"
                      ("Chyba: " +:+ error_toString TypeError);
           SetLoading false]).
Proof.
  intros Hguard Hbook Hsheets Hbefore Hnamed Hsheet.
  rewrite fetchTable_run by done.
  destruct (workbookOf_Some TypeError env book Hbook) as (-> & -> & -> & ->).
  rewrite Hsheets.
  destruct (loop_prefix env before after sheetName sheet named Hbefore Hnamed)
    as (-> & -> & -> & ->).
  simpl. rewrite Hsheet. simpl.
  rewrite !fmap_app, app_nil_r. simpl. by rewrite <- !app_assoc.
Qed.

(** X6: a call that passes the guard shows an alert exactly when its
    [try] block throws, be it the request, the reading of the body, the
    decoding, a conversion to rows, or the render of a sheet without rows
    started by [setTableData]: one alert, with the text of the thrown
    value, which is also logged once with [console.error]; a run in which
    nothing throws shows no alert and logs no error. *)
Theorem fetchTable_reports_failure_once env v :
  notAllowed (authenticated v) = false →
  filter (λ ev, isAlert ev = true) (trace (fetchTable env v))
  = match fetchError env with
    | Some err => [AlertAlert "Při načítání tabulky se vyskytla chyba"
                              ("Chyba: " +:+ error_toString err)]
    | None => []
    end
  ∧ filter (λ ev, isConsoleError ev = true) (trace (fetchTable env v))
    = match fetchError env with
      | Some err => [ConsoleError err]
      | None => []
      end.
Proof.
  intros Hguard. rewrite fetchTable_run by done. cbn [trace].
  rewrite !filter_app, !filter_SetTableData by done.
  by destruct (fetchError env) as [err|].
Qed.

(** X7: [fetchTable] never throws, never changes the authentication
    state, and never queries the sensor or opens the biometric prompt. *)
Theorem fetchTable_leaves_authentication_alone env v :
  outcome (fetchTable env v) = Returned tt
  ∧ authenticated (view (fetchTable env v)) = authenticated v
  ∧ existsb isSetAuthenticated (trace (fetchTable env v)) = false
  ∧ existsb isSensorCall (trace (fetchTable env v)) = false
  ∧ existsb isPrompt (trace (fetchTable env v)) = false.
Proof.
  destruct (notAllowed (authenticated v)) eqn:Hguard.
  - by rewrite fetchTable_rejected.
  - rewrite fetchTable_run by done. cbn [trace view outcome authenticated].
    rewrite !existsb_app, !existsb_SetTableData by done.
    by destruct (fetchError env) as [err|].
Qed.

(** X8: the run of a call that passes the guard does not depend on the
    table shown before it or on the value of [loading]: two states with
    the same authentication state give the same run. *)
Theorem fetchTable_forgets_previous_table env v v' :
  notAllowed (authenticated v) = false →
  authenticated v' = authenticated v →
  fetchTable env v' = fetchTable env v.
Proof.
  intros Hguard Hauth.
  rewrite (fetchTable_run env v), (fetchTable_run env v') by congruence.
  by rewrite Hauth.
Qed.

(** X9: a call that passes the guard makes exactly one network request, a
    GET of the fixed link, after it has set [loading] and cleared
    [tableData]; resetting [loading] is the last thing it does. *)
Theorem fetchTable_single_request env v :
  notAllowed (authenticated v) = false →
  filter (λ ev, isNetworkCall ev = true) (trace (fetchTable env v))
  = [CallFetch "GET" downloadUrl]
  ∧ (∃ rest : list (Event number error),
       trace (fetchTable env v)
       = SetLoading true :: SetTableData ∅ :: CallFetch "GET" downloadUrl :: rest)
  ∧ last (trace (fetchTable env v)) = Some (SetLoading false).
Proof.
  intros Hguard. rewrite fetchTable_run by done. cbn [trace].
  split; [|split].
  - rewrite !filter_app, !filter_SetTableData by done.
    by destruct (fetchError env) as [err|].
  - by eexists.
  - rewrite !app_assoc. by rewrite last_snoc.
Qed.

End MoreFetchFacts.

(** ** More on the biometric authentication *)

Section MoreAuthFacts.

Context {number error Response WorkSheet : Type}.
Variable Number_toString : number → string.
Variable error_toString : error → string.
Variable TypeError : error.
Implicit Types (env : Env number error Response WorkSheet) (v : View number).

Local Abbreviation fetchTable :=
  (fetchTable Number_toString error_toString TypeError).

(** Runs [tryToAuthenticate] on each possible answer of the platform. *)
Ltac run_authentication env :=
  cbv [isBiometryAvailable promptBiometry tryToAuthenticate
       try_catch mbind M_bind bind mret M_ret ret emit await
       setAuthenticated outcome view trace onScreen mounted cells];
  destruct (isSensorAvailable env) as [[biometryType [|]]|err];
  [destruct (simplePrompt env) as [[|]|err]| |].

(** The state [tryToAuthenticate] ends in, by the answers of the
    platform. *)
Lemma tryToAuthenticate_state env v :
  authenticated (view (tryToAuthenticate env v))
  = match isSensorAvailable env with
    | Returned (_, true) =>
        match simplePrompt env with
        | Returned true => AUTHENTICATED
        | _ => UNAUTHENTICATED
        end
    | _ => NOT_SUPPORTED
    end.
Proof. run_authentication env; done. Qed.

Lemma tryToAuthenticate_view env v :
  view (tryToAuthenticate env v)
  = mkView (authenticated (view (tryToAuthenticate env v)))
           (tableData v) (loading v).
Proof. run_authentication env; done. Qed.

Lemma tryToAuthenticate_not_pending env v :
  authenticated (view (tryToAuthenticate env v)) ≠ PENDING.
Proof.
  rewrite tryToAuthenticate_state.
  by destruct (isSensorAvailable env) as [[biometryType [|]]|err];
    [destruct (simplePrompt env) as [[|]|err]| |].
Qed.

Lemma fetchTable_network env v :
  existsb isNetworkCall (trace (fetchTable env v)) = negb (notAllowed (authenticated v)).
Proof.
  destruct (notAllowed (authenticated v)) eqn:Hguard.
  - by rewrite fetchTable_rejected.
  - by rewrite fetchTable_run.
Qed.

(** X10: [tryToAuthenticate] touches neither [tableData] nor [loading],
    and makes no network request: a table that is on screen stays there
    whatever the outcome of the authentication. *)
Theorem tryToAuthenticate_leaves_table_alone env v :
  tableData (view (tryToAuthenticate env v)) = tableData v
  ∧ loading (view (tryToAuthenticate env v)) = loading v
  ∧ assigned (trace (tryToAuthenticate env v)) = []
  ∧ existsb isNetworkCall (trace (tryToAuthenticate env v)) = false.
Proof. run_authentication env; done. Qed.

(** X11: every run of [tryToAuthenticate] calls [setAuthenticated] exactly
    once, as its last action, with a state that is never [PENDING] and
    that does not depend on the state before the run. *)
Theorem tryToAuthenticate_settles env v :
  ∃ s : AuthState,
    s ≠ PENDING
    ∧ authenticated (view (tryToAuthenticate env v)) = s
    ∧ filter (λ ev, isSetAuthenticated ev = true) (trace (tryToAuthenticate env v))
      = [SetAuthenticated s]
    ∧ last (trace (tryToAuthenticate env v)) = Some (SetAuthenticated s)
    ∧ ∀ v', authenticated (view (tryToAuthenticate env v')) = s.
Proof.
  exists (authenticated (view (tryToAuthenticate env v))).
  split; [|split; [done|split; [|split]]].
  - apply tryToAuthenticate_not_pending.
  - run_authentication env; done.
  - run_authentication env; done.
  - intros v'. by rewrite !tryToAuthenticate_state.
Qed.

(** X12: both helpers leave the state cells as they are; when the
    platform's call returns, [isBiometryAvailable] returns its [available]
    flag after logging it with the biometry type, and [promptBiometry]
    returns its [success] flag and logs nothing. *)
Theorem biometric_helpers_pass_answer_on env v :
  view (isBiometryAvailable env v) = v
  ∧ view (promptBiometry env v) = v
  ∧ (∀ (biometryType : option string) (available : bool),
       isSensorAvailable env = Returned (biometryType, available) →
       outcome (isBiometryAvailable env v) = Returned available
       ∧ trace (isBiometryAvailable env v)
         = [CallIsSensorAvailable;
            ConsoleLog ("Biometry check | Available: " +:+ bool_toString available
                        +:+ " Type: " +:+ biometryType_toString biometryType)])
  ∧ (∀ success : bool,
       simplePrompt env = Returned success →
       outcome (promptBiometry env v) = Returned success
       ∧ trace (promptBiometry env v) = [CallSimplePrompt "Confirm fingerprint"]).
Proof.
  rewrite isBiometryAvailable_run, promptBiometry_run.
  split; [|split; [|split]].
  - by destruct (isSensorAvailable env) as [[biometryType available]|err].
  - by destruct (simplePrompt env) as [success|err].
  - by intros biometryType available ->.
  - by intros success ->.
Qed.

(** X13: after an authentication attempt, "Load table" is refused exactly
    when the sensor was available and the prompt did not answer success;
    on a device whose sensor is unavailable or fails the download is
    always let through. *)
Theorem fetchTable_after_tryToAuthenticate env env' v :
  existsb isNetworkCall
    (trace (fetchTable env' (view (tryToAuthenticate env v)))) = false
  ↔ sensorAvailable env ∧ simplePrompt env ≠ Returned true.
Proof.
  rewrite tryToAuthenticate_view, fetchTable_network. cbn [authenticated].
  rewrite tryToAuthenticate_state. unfold sensorAvailable.
  destruct (isSensorAvailable env) as [[biometryType [|]]|err];
    [destruct (simplePrompt env) as [[|]|err]| |]; cbv; split;
    try done; try (intros [[? ?] ?]; done); try (intros _; split; [by eexists|done]).
Qed.

End MoreAuthFacts.

(** ** More on the rendering of a sheet *)

Section MoreRenderFacts.

Context {number : Type}.
Variable Number_toString : number → string.
Implicit Types (sd : SheetData number) (row : list (cell number)).

Local Abbreviation computeWidths := (computeWidths Number_toString).
Local Abbreviation cellLength := (cellLength Number_toString).
Local Abbreviation sheetEntry := (sheetEntry Number_toString).

(** What the callback builds when it does not throw. *)
Lemma renderSheet_Some (tableData : gmap string (SheetData number))
    (sheetName : string) (i : nat) (el : SheetElement) :
  renderSheet tableData sheetName i = Some el ↔
  ∃ sd header,
    tableData !! sheetName = Some sd
    ∧ rows sd !! 0%nat = Some header
    ∧ el = mkSheetElement i sheetName
             (mkTr None true (Some "#dddddd") (renderCells sd header))
             (imap (renderDataRow sd) (rows sd)).
Proof.
  unfold renderSheet. split.
  - destruct (tableData !! sheetName) as [sd|]; [|done]. simpl.
    destruct (rows sd !! 0%nat) as [header|] eqn:Hheader; [|done]. simpl.
    intros [= <-]. by exists sd, header.
  - intros (sd & header & -> & Hheader & ->). simpl. by rewrite Hheader.
Qed.

(** The rows that are drawn, one by one. *)
Lemma elem_of_drawn sd (rows : list (list (cell number))) (tr : TrElement) :
  tr ∈ drawn (imap (renderDataRow sd) rows) ↔
  ∃ (j : nat) row,
    rows !! j = Some row ∧ j ≠ 0%nat ∧ length row ≠ 0%nat
    ∧ tr = mkTr (Some j) (bool_decide (j ≤ 1)%nat) None (renderCells sd row).
Proof.
  unfold drawn. rewrite list_elem_of_omap. split.
  - intros (otr & Hin & Hsome). simpl in Hsome. subst otr.
    apply elem_of_lookup_imap in Hin as (j & row & Hdraw & Hrow).
    exists j, row. split; [done|].
    destruct (decide (j = 0%nat)) as [Hj|Hj].
    { rewrite renderDataRow_skipped in Hdraw by auto. done. }
    destruct (decide (length row = 0%nat)) as [Hlen|Hlen].
    { rewrite renderDataRow_skipped in Hdraw by auto. done. }
    rewrite renderDataRow_kept in Hdraw by done.
    by injection Hdraw as ->.
  - intros (j & row & Hrow & Hj & Hlen & ->).
    exists (renderDataRow sd j row). split.
    + by apply elem_of_lookup_imap_2.
    + by rewrite renderDataRow_kept.
Qed.

(** The cells of a row, one by one. *)
Lemma lookup_renderCells sd row (k : nat) (td : TdElement) :
  renderCells sd row !! k = Some td ↔
  ∃ value, row !! k = Some value
           ∧ td = mkTd (JsArray.get (widthArr sd) k) (bool_decide (k = 0%nat)) k value.
Proof.
  unfold renderCells. rewrite list_lookup_imap.
  destruct (row !! k) as [value|]; simpl; split.
  - intros [= <-]. by exists value.
  - by intros (value' & [= <-] & ->).
  - done.
  - by intros (value' & ? & _).
Qed.

(** The rows shown by a sheet view: the header row and the drawn data
    rows, each with the row of the sheet it shows. *)
Lemma shown_rows (tableData : gmap string (SheetData number))
    (sheetName : string) (i : nat) (el : SheetElement) sd (tr : TrElement) :
  tableData !! sheetName = Some sd →
  renderSheet tableData sheetName i = Some el →
  tr ∈ headerRow el :: drawn (dataRows el) →
  ∃ row, row ∈ rows sd ∧ tr_children tr = renderCells sd row.
Proof.
  intros Hsheet (sd' & header & Hsheet' & Hheader & ->)%renderSheet_Some Htr.
  assert (sd' = sd) as -> by congruence. simpl in Htr.
  apply elem_of_cons in Htr as [->|Htr].
  - exists header. split; [|done]. by eapply list_elem_of_lookup_2.
  - apply elem_of_drawn in Htr as (j & row & Hrow & _ & _ & ->).
    exists row. split; [|done]. by eapply list_elem_of_lookup_2.
Qed.

(** X14: building the view of a sheet throws exactly when [tableData] has
    no such sheet or the sheet has no row at all. *)
Theorem renderSheet_throws (tableData : gmap string (SheetData number))
    (sheetName : string) (i : nat) :
  renderSheet tableData sheetName i = None
  ↔ tableData !! sheetName = None
    ∨ ∃ sd, tableData !! sheetName = Some sd ∧ rows sd = [].
Proof.
  unfold renderSheet.
  destruct (tableData !! sheetName) as [sd|]; simpl; [|by split; auto].
  destruct (rows sd) as [|header rest] eqn:Hrows; simpl.
  - split; [|done]. intros _. right. by exists sd.
  - split; [done|]. intros [?|(sd' & [= <-] & Hnil)]; [done|]. congruence.
Qed.

(** X15: in the view of a sheet as [fetchTable] stores it, every cell of
    the header row and of the drawn data rows has a width, and this width
    is at least 10 plus 10 times the length of the cell's own text. *)
Theorem drawn_cells_fit (sheetName : string) (rows : list (list (cell number)))
    (i : nat) (el : SheetElement) :
  renderSheet (sheetEntry (sheetName, rows)) sheetName i = Some el →
  Forall (λ tr : TrElement,
            Forall (λ td : TdElement,
                      ∃ w : Z, td_width td = Some w
                               ∧ 10 + 10 * Z.of_nat (cellLength (td_children td)) ≤ w)
                   (tr_children tr))
         (headerRow el :: drawn (dataRows el)).
Proof.
  intros Hel. apply Forall_forall. intros tr Htr.
  destruct (shown_rows (sheetEntry (sheetName, rows)) sheetName i el
              (mkSheetData (computeWidths rows) rows) tr) as (row & Hrow & ->);
    [apply lookup_singleton_eq|done|done|].
  simpl in Hrow. apply Forall_lookup. intros k td Htd.
  apply lookup_renderCells in Htd as (value & Hvalue & ->). simpl.
  rewrite (computeWidths_get Number_toString).
  assert (value ∈ column rows k) as Hin.
  { apply elem_of_column. by exists row. }
  unfold columnWidth.
  destruct (column rows k) as [|c col] eqn:Hcol; [by apply elem_of_nil in Hin|].
  eexists. split; [done|].
  assert (cellLength value ≤ max_list_with cellLength (c :: col))%nat; [|lia].
  by apply (max_list_with_le cellLength (c :: col)).
Qed.

(** X16: in the view of a sheet the cell at position [k] of any shown row
    has key [k], is marked first exactly when [k] is 0, and is given the
    width [widthArr[k]]: cells at the same position of the header and of
    the data rows are given the same width. *)
Theorem shown_cells_align (tableData : gmap string (SheetData number))
    (sheetName : string) (i : nat) (el : SheetElement) sd :
  tableData !! sheetName = Some sd →
  renderSheet tableData sheetName i = Some el →
  ∀ (tr : TrElement) (k : nat) (td : TdElement),
    tr ∈ headerRow el :: drawn (dataRows el) →
    tr_children tr !! k = Some td →
    td_key td = k
    ∧ (td_first td = true ↔ k = 0%nat)
    ∧ td_width td = JsArray.get (widthArr sd) k.
Proof.
  intros Hsheet Hel tr k td Htr Htd.
  destruct (shown_rows tableData sheetName i el sd tr Hsheet Hel Htr)
    as (row & _ & Hcells).
  rewrite Hcells in Htd.
  apply lookup_renderCells in Htd as (value & _ & ->). simpl.
  split; [done|]. split; [|done]. apply bool_decide_eq_true.
Qed.

Lemma drawn_keys sd (rows : list (list (cell number))) :
  tr_key <$> drawn (imap (renderDataRow sd) rows)
  = Some <$> (keptRows rows).*1.
Proof.
  pose proof (f_equal (fmap fst) (drawn_imap_renderDataRow sd id rows)) as Hkeys.
  rewrite <- !list_fmap_compose in Hkeys.
  rewrite <- list_fmap_compose. exact Hkeys.
Qed.

Lemma keptRows_indices (rows : list (list (cell number))) :
  (keptRows rows).*1 `sublist_of` seq 0 (length rows).
Proof.
  unfold keptRows.
  transitivity ((imap pair rows).*1).
  - apply fmap_sublist, sublist_filter.
  - rewrite fmap_imap.
    rewrite (imap_ext _ (λ j _, id j)) by done.
    by rewrite imap_seq_0, list_fmap_id.
Qed.

Lemma keys_renderCells sd row :
  td_key <$> renderCells sd row = seq 0 (length (renderCells sd row)).
Proof.
  unfold renderCells. rewrite fmap_imap, length_imap.
  rewrite (imap_ext _ (λ k _, id k)) by done.
  by rewrite imap_seq_0, list_fmap_id.
Qed.

(** X17: the header row is given no key; the drawn data rows are keyed by
    their row index, so their keys are all different and none is 0; and
    the cells of every shown row are keyed 0, 1, 2, ... in order. *)
Theorem shown_rows_keys (tableData : gmap string (SheetData number))
    (sheetName : string) (i : nat) (el : SheetElement) sd :
  tableData !! sheetName = Some sd →
  renderSheet tableData sheetName i = Some el →
  tr_key (headerRow el) = None
  ∧ NoDup (tr_key <$> drawn (dataRows el))
  ∧ (∀ tr : TrElement, tr ∈ drawn (dataRows el) →
       ∃ j : nat, tr_key tr = Some j ∧ (1 ≤ j < length (rows sd))%nat)
  ∧ (∀ tr : TrElement, tr ∈ headerRow el :: drawn (dataRows el) →
       td_key <$> tr_children tr = seq 0 (length (tr_children tr))).
Proof.
  intros Hsheet Hel.
  pose proof Hel as (sd' & header & Hsheet' & Hheader & Heq)%renderSheet_Some.
  assert (sd' = sd) as -> by congruence.
  split; [by rewrite Heq|]. split; [|split].
  - rewrite Heq. simpl. rewrite drawn_keys.
    apply (NoDup_fmap_2 _).
    eapply sublist_NoDup; [apply NoDup_seq|apply keptRows_indices].
  - rewrite Heq. simpl. intros tr Htr.
    apply elem_of_drawn in Htr as (j & row & Hrow & Hj & _ & ->).
    exists j. split; [done|]. apply lookup_lt_Some in Hrow. lia.
  - intros tr Htr.
    destruct (shown_rows tableData sheetName i el sd tr Hsheet Hel Htr)
      as (row & _ & ->).
    apply keys_renderCells.
Qed.

(** X18: drawn through the table components, every shown row has a bottom
    border; the header row has a top border and the grey background; a
    data row has no background, and it has a top border exactly when it is
    the row of index 1.  Every cell is a single line of text with a right
    border, padding 5 and minimum width 1, is as wide as [widthArr] says
    for its position, and has a left border exactly when it is the first
    cell of its row. *)
Theorem shown_table_borders (tableData : gmap string (SheetData number))
    (sheetName : string) (i : nat) (el : SheetElement) sd :
  tableData !! sheetName = Some sd →
  renderSheet tableData sheetName i = Some el →
  (CustomTable.styleValue "borderTopWidth" (CustomTable.style (drawTr (headerRow el)))
   = CustomTable.Num 1
   ∧ CustomTable.styleValue "borderBottomWidth" (CustomTable.style (drawTr (headerRow el)))
     = CustomTable.Num 1
   ∧ CustomTable.styleValue "backgroundColor" (CustomTable.style (drawTr (headerRow el)))
     = CustomTable.Str "#dddddd")
  ∧ (∀ tr : TrElement, tr ∈ drawn (dataRows el) →
       CustomTable.styleValue "borderBottomWidth" (CustomTable.style (drawTr tr))
       = CustomTable.Num 1
       ∧ CustomTable.styleValue "backgroundColor" (CustomTable.style (drawTr tr))
         = CustomTable.Undefined
       ∧ CustomTable.styleValue "borderTopWidth" (CustomTable.style (drawTr tr))
         = (if decide (tr_key tr = Some 1%nat)
            then CustomTable.Num 1 else CustomTable.Num 0))
  ∧ (∀ (tr : TrElement) (k : nat)
       (c : CustomTable.ViewElement (CustomTable.TextElement (cell number))),
       tr ∈ headerRow el :: drawn (dataRows el) →
       CustomTable.view_children (drawTr tr) !! k = Some c →
       CustomTable.numberOfLines (CustomTable.view_children c) = 1%nat
       ∧ CustomTable.styleValue "borderRightWidth" (CustomTable.style c)
         = CustomTable.Num 1
       ∧ CustomTable.styleValue "padding" (CustomTable.style c) = CustomTable.Num 5
       ∧ CustomTable.styleValue "minWidth" (CustomTable.style c) = CustomTable.Num 1
       ∧ CustomTable.styleValue "width" (CustomTable.style c)
         = CustomTable.numberProp (JsArray.get (widthArr sd) k)
       ∧ CustomTable.styleValue "borderLeftWidth" (CustomTable.style c)
         = (if decide (k = 0%nat) then CustomTable.Num 1 else CustomTable.Num 0)).
Proof.
  intros Hsheet Hel.
  pose proof Hel as (sd' & header & Hsheet' & Hheader & Heq)%renderSheet_Some.
  assert (sd' = sd) as -> by congruence.
  split; [by rewrite Heq|]. split.
  - rewrite Heq. simpl. intros tr Htr.
    apply elem_of_drawn in Htr as (j & row & Hrow & Hj & _ & ->).
    split; [done|]. split; [done|]. simpl.
    destruct (decide (Some j = Some 1%nat)) as [[= ->]|Hne]; [done|].
    cbv [drawTr CustomTable.Tr CustomTable.style CustomTable.styleValue
         CustomTable.flattened tr_first].
    rewrite bool_decide_eq_false_2; [done|].
    intros Hle. apply Hne. f_equal. lia.
  - intros tr k c Htr Hc.
    destruct (shown_rows tableData sheetName i el sd tr Hsheet Hel Htr)
      as (row & _ & Hcells).
    unfold drawTr in Hc. simpl in Hc. rewrite Hcells, list_lookup_fmap in Hc.
    destruct (renderCells sd row !! k) as [td|] eqn:Htd; [|done].
    injection Hc as <-.
    apply lookup_renderCells in Htd as (value & _ & ->).
    repeat (split; [done|]).
    cbv [drawTd CustomTable.Td CustomTable.style CustomTable.styleValue
         CustomTable.flattened td_first].
    by destruct (decide (k = 0%nat)) as [->|Hk];
      [|rewrite bool_decide_eq_false_2 by done].
Qed.

End MoreRenderFacts.
(** ** The screen and the sessions of the component *)

Section ScreenFacts.

Context {number error Response WorkSheet : Type}.
Variable Number_toString : number → string.
Variable error_toString : error → string.
Variable TypeError : error.
Variable Object_keys : gmap string (SheetData number) → list string.
Implicit Types (env : Env number error Response WorkSheet) (v : View number)
               (w : World number).

Local Abbreviation fetchTable :=
  (fetchTable Number_toString error_toString TypeError).
Local Abbreviation sheetEntry := (sheetEntry Number_toString).
Local Abbreviation App := (App Object_keys).
Local Abbreviation press :=
  (press Number_toString error_toString TypeError Object_keys).
Local Abbreviation session :=
  (session Number_toString error_toString TypeError Object_keys).
Local Abbreviation fetchTable_view :=
  (fetchTable_view Number_toString error_toString TypeError).

(** The controls of the screen, when it can be built. *)
Lemma App_Some v (el : AppElement number) :
  App v = Some el →
  biometryText el = "AuthState: " +:+ AuthState_toString (authenticated v)
  ∧ authenticateButton el
    = (if bool_decide (authenticated v ≠ AUTHENTICATED)
       then Some (mkButton "Authenticate" None OnTryToAuthenticate)
       else None)
  ∧ fetchControl el
    = (if loading v
       then ActivityIndicator 30
       else FetchButton (mkButton "Load table" (Some "limegreen") OnFetchTable)).
Proof.
  unfold App.
  destruct (mapM id _) as [sheets|]; simpl; [|done].
  by intros [= <-].
Qed.

(** What a press does: nothing, or the handler of the button. *)
Lemma press_cases (p : Press) env w :
  press p env w = w
  ∨ (mounted w = true ∧ p = PressAuthenticate
     ∧ authenticated w ≠ AUTHENTICATED
     ∧ press p env w = view (tryToAuthenticate env (cells w)))
  ∨ (mounted w = true ∧ p = PressLoadTable ∧ loading w = false
     ∧ press p env w = view (fetchTable env (cells w))).
Proof.
  unfold press. destruct w as [v [|]]; simpl; [|by left].
  destruct (App v) as [el|] eqn:Hel; [|by left].
  destruct (App_Some v el Hel) as (_ & Hauth & Hfetch).
  destruct p.
  - rewrite Hauth. case_bool_decide; [by right; left|by left].
  - rewrite Hfetch. destruct (loading v); [by left|by right; right].
Qed.

Lemma session_snoc env0
    (presses : list (Press * Env number error Response WorkSheet))
    (p : Press) env :
  session env0 (presses ++ [(p, env)]) = press p env (session env0 presses).
Proof. unfold session. by rewrite foldl_snoc. Qed.

(** The sheets whose update is committed have rows. *)
Lemma committedSheets_rows env (sheets : list (string * WorkSheet)) :
  Forall (λ nr, nr.2 ≠ []) (committedSheets env sheets).
Proof.
  induction sheets as [|[sheetName sheet] sheets IH]; simpl.
  - constructor.
  - destruct (sheet_to_json env sheet) as [[|row rows]|err];
      [constructor| |constructor].
    apply Forall_cons. by split.
Qed.

Lemma renders_last_storedSheets env :
  renders (default ∅ (last (sheetEntry <$> storedSheets env))) = true.
Proof.
  assert (Forall (λ nr, nr.2 ≠ []) (storedSheets env)) as Hrows.
  { unfold storedSheets. destruct (workbookOf env) as [book|].
    - apply committedSheets_rows.
    - constructor. }
  rewrite fmap_last.
  destruct (last (storedSheets env)) as [[sheetName rows]|] eqn:Hlast; simpl.
  - unfold sheetEntry. simpl. rewrite renders_singleton.
    apply last_Some_elem_of in Hlast.
    rewrite Forall_forall in Hrows. specialize (Hrows _ Hlast). simpl in Hrows.
    by destruct rows.
  - apply renders_empty.
Qed.

(** X19: after mounting and any series of presses, each handler running
    to its end, the authentication state is no longer [PENDING] and
    [tableData] holds at most one sheet; [loading] is [false] as long as
    the component is mounted, every sheet of [tableData] then having a
    row, and it is [true] once a download has met a sheet without rows and
    the component is unmounted. *)
Theorem session_invariant env0
    (presses : list (Press * Env number error Response WorkSheet)) :
  authenticated (session env0 presses) ≠ PENDING
  ∧ (size (tableData (session env0 presses)) ≤ 1)%nat
  ∧ loading (session env0 presses) = negb (mounted (session env0 presses))
  ∧ (mounted (session env0 presses) = true →
     renders (tableData (session env0 presses)) = true).
Proof.
  induction presses as [|[p env] presses IH] using rev_ind.
  - unfold session, mount. simpl. rewrite tryToAuthenticate_view. simpl.
    split; [apply tryToAuthenticate_not_pending|].
    split; [rewrite map_size_empty; lia|].
    split; [done|]. intros _. apply renders_empty.
  - rewrite session_snoc.
    destruct IH as (Hauth & Hsize & Hloading & Hrenders).
    destruct (press_cases p env (session env0 presses))
      as [->|[(Hmounted & _ & _ & ->)|(Hmounted & _ & _ & ->)]]; [done| |].
    + rewrite tryToAuthenticate_view. simpl.
      split; [apply tryToAuthenticate_not_pending|].
      split; [done|]. rewrite Hloading, Hmounted. split; [done|].
      intros _. by apply Hrenders.
    + rewrite fetchTable_view.
      destruct (notAllowed _).
      { simpl. rewrite Hloading, Hmounted. split; [done|]. split; [done|].
        split; [done|]. intros _. by apply Hrenders. }
      simpl. split; [done|]. split; [apply size_last_sheetEntry|].
      split; [by rewrite negb_involutive|].
      intros _. apply renders_last_storedSheets.
Qed.

(** X20: once a session has reached [AUTHENTICATED] it stays there,
    whatever is pressed afterwards. *)
Theorem session_stays_authenticated env0
    (presses more : list (Press * Env number error Response WorkSheet)) :
  authenticated (session env0 presses) = AUTHENTICATED →
  authenticated (session env0 (presses ++ more)) = AUTHENTICATED.
Proof.
  intros Hauth. induction more as [|[p env] more IH] using rev_ind.
  - by rewrite app_nil_r.
  - rewrite app_assoc, session_snoc.
    destruct (press_cases p env (session env0 (presses ++ more)))
      as [->|[(_ & _ & Hne & _)|(_ & _ & _ & ->)]]; [done|done|].
    rewrite fetchTable_view.
    by destruct (notAllowed _).
Qed.

(** X21: in a session where the sensor is available and no prompt ever
    answers success, nothing is ever downloaded: the state stays
    [UNAUTHENTICATED] with an empty [tableData]. *)
Theorem session_locked env0
    (presses : list (Press * Env number error Response WorkSheet)) :
  sensorAvailable env0 ∧ simplePrompt env0 ≠ Returned true →
  Forall (λ pe, sensorAvailable pe.2 ∧ simplePrompt pe.2 ≠ Returned true) presses →
  session env0 presses = mkView UNAUTHENTICATED ∅ false.
Proof.
  assert (∀ env v, sensorAvailable env ∧ simplePrompt env ≠ Returned true →
                   authenticated (view (tryToAuthenticate env v)) = UNAUTHENTICATED)
    as Hrefused.
  { intros env v [[biometryType Hsensor] Hprompt].
    rewrite tryToAuthenticate_state, Hsensor.
    by destruct (simplePrompt env) as [[|]|err]. }
  intros Hmount Hpresses.
  induction presses as [|[p env] presses IH] using rev_ind.
  - unfold session, mount. simpl. rewrite tryToAuthenticate_view.
    by rewrite (Hrefused _ _ Hmount).
  - apply Forall_app in Hpresses as [Hpresses Hlast].
    apply Forall_inv in Hlast.
    rewrite session_snoc, (IH Hpresses).
    destruct (press_cases p env (mkView UNAUTHENTICATED ∅ false))
      as [->|[(_ & _ & _ & ->)|(_ & _ & _ & ->)]]; [done| |].
    + rewrite tryToAuthenticate_view. by rewrite (Hrefused _ _ Hlast).
    + by rewrite fetchTable_view.
Qed.

(** X22: after an authentication attempt the "Authenticate" button is
    gone exactly when the sensor was available and the prompt answered
    success; in particular it stays on a device without a usable sensor. *)
Theorem authenticateButton_after_tryToAuthenticate env v (el : AppElement number) :
  App (view (tryToAuthenticate env v)) = Some el →
  authenticateButton el = None
  ↔ sensorAvailable env ∧ simplePrompt env = Returned true.
Proof.
  intros (_ & -> & _)%App_Some.
  rewrite tryToAuthenticate_state. unfold sensorAvailable.
  destruct (isSensorAvailable env) as [[biometryType [|]]|err];
    [destruct (simplePrompt env) as [[|]|err]| |]; cbv; split;
    try done; try (intros [[? ?] ?]; done); try (intros _; split; [by eexists|done]).
Qed.

Hypothesis Object_keys_dom :
  ∀ (m : gmap string (SheetData number)) (sheetName : string),
    sheetName ∈ Object_keys m ↔ is_Some (m !! sheetName).

(** The screen cannot be built exactly when some sheet has no row. *)
Lemma App_None_iff v :
  App v = None
  ↔ ∃ (sheetName : string) (sd : SheetData number),
      tableData v !! sheetName = Some sd ∧ rows sd = [].
Proof.
  unfold App.
  destruct (mapM id _) as [sheets|] eqn:Hsheets; simpl.
  - split; [done|]. intros (sheetName & sd & Hsheet & Hrows). exfalso.
    assert (sheetName ∈ Object_keys (tableData v)) as Hkey.
    { apply Object_keys_dom. by eexists. }
    apply list_elem_of_lookup in Hkey as [i Hi].
    assert (is_Some (mapM id (imap (λ i sheetName, renderSheet (tableData v) sheetName i)
                                   (Object_keys (tableData v))))) as Hall by eauto.
    apply mapM_is_Some in Hall.
    rewrite Forall_lookup in Hall.
    specialize (Hall i (renderSheet (tableData v) sheetName i)).
    rewrite list_lookup_imap, Hi in Hall. specialize (Hall eq_refl).
    unfold renderSheet in Hall. rewrite Hsheet in Hall. simpl in Hall.
    rewrite Hrows in Hall. simpl in Hall. by destruct Hall.
  - split; [|done]. intros _.
    apply mapM_None in Hsheets. apply Exists_exists in Hsheets as (o & Hin & Ho).
    simpl in Ho. subst o.
    apply elem_of_lookup_imap in Hin as (i & sheetName & Hnone & Hi).
    assert (is_Some (tableData v !! sheetName)) as [sd Hsheet].
    { apply Object_keys_dom. by eapply list_elem_of_lookup_2. }
    exists sheetName, sd. split; [done|].
    unfold renderSheet in Hnone. rewrite Hsheet in Hnone. simpl in Hnone.
    by destruct (rows sd).
Qed.


(** X23: the screen cannot be built exactly when [tableData] holds a
    sheet that has no row. *)
Theorem App_throws v :
  App v = None
  ↔ ∃ (sheetName : string) (sd : SheetData number),
      tableData v !! sheetName = Some sd ∧ rows sd = [].
Proof. apply App_None_iff. Qed.


End ScreenFacts.

(** ** The further properties on concrete platforms *)

Section MoreConcrete.

Import Examples MoreExamples.

Local Abbreviation fetchTable := (fetchTable Number_toString id TypeError).
Local Abbreviation computeWidths := (computeWidths Number_toString).
Local Abbreviation sheetEntry := (sheetEntry Number_toString).
Local Abbreviation App := (App Object_keys).
Local Abbreviation session := (session Number_toString id TypeError Object_keys).
Local Abbreviation setTableData := (setTableData TypeError).

Lemma Object_keys_lists_sheets (m : gmap string (SheetData Z)) (sheetName : string) :
  sheetName ∈ Object_keys m ↔ is_Some (m !! sheetName).
Proof.
  unfold Object_keys. rewrite list_elem_of_fmap. split.
  - intros ([name sd] & -> & Hin). apply elem_of_map_to_list in Hin. by eexists.
  - intros [sd Hsd]. exists (sheetName, sd). split; [done|].
    by apply elem_of_map_to_list.
Qed.

Example fetchTable_brokenSecondSheet :
  fetchTable brokenSecondSheet signedIn
  = mkRun (Returned tt)
      (mkView AUTHENTICATED (sheetEntry ("Sheet1", rowsAB)) false)
      [SetLoading true; SetTableData ∅; CallFetch "GET" downloadUrl;
       SetTableData (sheetEntry ("Sheet1", rowsAB));
       ConsoleError "Unsupported sheet";
       AlertAlert "Při načítání tabulky se vyskytla chyba"
                  "Chyba: Unsupported sheet";
       SetLoading false].
Proof. vm_compute. reflexivity. Qed.

Lemma computeWidths_grows_witness :
  rowsAB ⊆+ rowsAB ++ rowsMixed
  ∧ JsArray.get (computeWidths rowsAB) 0 = Some 20
  ∧ ∃ w' : Z, JsArray.get (computeWidths (rowsAB ++ rowsMixed)) 0 = Some w' ∧ 20 ≤ w'.
Proof.
  split; [apply submseteq_inserts_r; reflexivity|]. split; [reflexivity|].
  apply (computeWidths_grows Number_toString rowsAB (rowsAB ++ rowsMixed) 0 20).
  - apply submseteq_inserts_r. reflexivity.
  - reflexivity.
Defined.

Lemma computeWidths_same_rows_witness :
  (∀ row, row ∈ rowsAB ↔ row ∈ rowsAB ++ reverse rowsAB)
  ∧ computeWidths rowsAB = computeWidths (rowsAB ++ reverse rowsAB).
Proof.
  assert (∀ row, row ∈ rowsAB ↔ row ∈ rowsAB ++ reverse rowsAB) as Hsame.
  { intros row. rewrite elem_of_app, elem_of_reverse. tauto. }
  split; [exact Hsame|].
  exact (computeWidths_same_rows Number_toString rowsAB _ Hsame).
Defined.

Lemma fetchTable_conversion_failure_witness :
  notAllowed (authenticated signedIn) = false
  ∧ sheet_to_json brokenSecondSheet None = Thrown "Unsupported sheet"
  ∧ tableData (view (fetchTable brokenSecondSheet signedIn))
    = sheetEntry ("Sheet1", rowsAB).
Proof.
  split; [reflexivity|]. split; [reflexivity|].
  assert (Forall (λ nr : string * list (list (cell Z)), nr.2 ≠ [])
                 [("Sheet1", rowsAB)]) as Hrows.
  { apply Forall_cons. split; [done|apply Forall_nil_2]. }
  rewrite (fetchTable_conversion_failure Number_toString id TypeError
             brokenSecondSheet signedIn
             (mkWorkBook [("Sheet1", Some rowsAB); ("Sheet2", None);
                          ("Sheet3", Some rowsMixed)])
             [("Sheet1", Some rowsAB)] [("Sheet3", Some rowsMixed)]
             "Sheet2" None "Unsupported sheet" [("Sheet1", rowsAB)]
             eq_refl eq_refl eq_refl eq_refl Hrows eq_refl).
  reflexivity.
Defined.

Lemma fetchTable_reports_failure_once_witness :
  notAllowed (authenticated signedIn) = false
  ∧ filter (λ ev, isAlert ev = true) (trace (fetchTable offline signedIn))
    = [AlertAlert "Při načítání tabulky se vyskytla chyba"
                  "Chyba: Network request failed"].
Proof.
  split; [reflexivity|].
  exact (proj1 (fetchTable_reports_failure_once Number_toString id TypeError
                  offline signedIn eq_refl)).
Defined.

Lemma fetchTable_forgets_previous_table_witness :
  notAllowed (authenticated signedIn) = false
  ∧ authenticated busy = authenticated signedIn
  ∧ fetchTable oneSheet busy = fetchTable oneSheet signedIn.
Proof.
  split; [reflexivity|]. split; [reflexivity|].
  exact (fetchTable_forgets_previous_table Number_toString id TypeError
           oneSheet signedIn busy eq_refl eq_refl).
Defined.

Lemma fetchTable_single_request_witness :
  notAllowed (authenticated signedIn) = false
  ∧ filter (λ ev, isNetworkCall ev = true) (trace (fetchTable twoSheets signedIn))
    = [CallFetch "GET" downloadUrl].
Proof.
  split; [reflexivity|].
  exact (proj1 (fetchTable_single_request Number_toString id TypeError
                  twoSheets signedIn eq_refl)).
Defined.

Lemma drawn_cells_fit_witness :
  ∃ el : SheetElement,
    renderSheet (sheetEntry ("Sheet2", rowsMixed)) "Sheet2" 0 = Some el
    ∧ Forall (λ tr : TrElement,
                Forall (λ td : TdElement,
                          ∃ w : Z, td_width td = Some w
                                   ∧ 10 + 10 * Z.of_nat (cellLength Number_toString
                                                           (td_children td)) ≤ w)
                       (tr_children tr))
             (headerRow el :: drawn (dataRows el)).
Proof.
  eexists. split; [reflexivity|].
  apply (drawn_cells_fit Number_toString "Sheet2" rowsMixed 0). reflexivity.
Defined.

Lemma shown_cells_align_witness :
  ∃ (el : SheetElement) (sd : SheetData Z),
    sheetEntry ("Sheet2", rowsMixed) !! "Sheet2" = Some sd
    ∧ renderSheet (sheetEntry ("Sheet2", rowsMixed)) "Sheet2" 0 = Some el
    ∧ ∀ (tr : TrElement) (k : nat) (td : TdElement),
        tr ∈ headerRow el :: drawn (dataRows el) →
        tr_children tr !! k = Some td →
        td_key td = k
        ∧ (td_first td = true ↔ k = 0%nat)
        ∧ td_width td = JsArray.get (widthArr sd) k.
Proof.
  eexists. eexists. split; [reflexivity|]. split; [reflexivity|].
  apply (shown_cells_align (sheetEntry ("Sheet2", rowsMixed)) "Sheet2" 0);
    reflexivity.
Defined.

Lemma shown_rows_keys_witness :
  ∃ el : SheetElement,
    renderSheet (sheetEntry ("Sheet2", rowsMixed)) "Sheet2" 0 = Some el
    ∧ tr_key <$> drawn (dataRows el) = [Some 2%nat; Some 3%nat]
    ∧ NoDup (tr_key <$> drawn (dataRows el)).
Proof.
  eexists. split; [reflexivity|]. split; [reflexivity|].
  refine (proj1 (proj2 (shown_rows_keys (sheetEntry ("Sheet2", rowsMixed))
                          "Sheet2" 0 _
                          (mkSheetData (computeWidths rowsMixed) rowsMixed)
                          eq_refl eq_refl))).
Defined.

Lemma shown_table_borders_witness :
  ∃ el : SheetElement,
    renderSheet (sheetEntry ("Sheet1", rowsAB)) "Sheet1" 0 = Some el
    ∧ CustomTable.styleValue "backgroundColor"
        (CustomTable.style (drawTr (headerRow el)))
      = CustomTable.Str "#dddddd".
Proof.
  eexists. split; [reflexivity|].
  refine (proj2 (proj2 (proj1 (shown_table_borders (sheetEntry ("Sheet1", rowsAB))
                                 "Sheet1" 0 _
                                 (mkSheetData (computeWidths rowsAB) rowsAB)
                                 eq_refl eq_refl)))).
Defined.

Lemma session_stays_authenticated_witness :
  authenticated (session oneSheet [(PressLoadTable, oneSheet)]) = AUTHENTICATED
  ∧ authenticated (session oneSheet ([(PressLoadTable, oneSheet)]
                                     ++ [(PressAuthenticate, twoSheets);
                                         (PressLoadTable, offline)]))
    = AUTHENTICATED.
Proof.
  split; [reflexivity|].
  apply (session_stays_authenticated Number_toString id TypeError Object_keys). reflexivity.
Defined.

Lemma session_locked_witness :
  (sensorAvailable twoSheets ∧ simplePrompt twoSheets ≠ Returned true)
  ∧ session twoSheets [(PressLoadTable, twoSheets); (PressAuthenticate, twoSheets);
                       (PressLoadTable, twoSheets)]
    = mkView UNAUTHENTICATED ∅ false.
Proof.
  assert (sensorAvailable twoSheets ∧ simplePrompt twoSheets ≠ Returned true)
    as Hrefused.
  { split; [by eexists|done]. }
  split; [exact Hrefused|].
  apply (session_locked Number_toString id TypeError Object_keys); [exact Hrefused|].
  repeat (apply Forall_cons; split; [exact Hrefused|]). apply Forall_nil_2.
Defined.

Lemma authenticateButton_after_tryToAuthenticate_witness :
  ∃ el : AppElement Z,
    App (view (tryToAuthenticate noSensor initialView)) = Some el
    ∧ authenticateButton el
      = Some (mkButton "Authenticate" None OnTryToAuthenticate)
    ∧ (authenticateButton el = None
       ↔ sensorAvailable noSensor ∧ simplePrompt noSensor = Returned true).
Proof.
  eexists. split; [reflexivity|]. split; [reflexivity|].
  apply (authenticateButton_after_tryToAuthenticate Object_keys noSensor initialView).
  reflexivity.
Defined.

Lemma App_throws_witness :
  App (mkView NOT_SUPPORTED (sheetEntry ("Empty", [])) false) = None.
Proof.
  apply (App_throws Object_keys Object_keys_lists_sheets).
  exists "Empty", (mkSheetData [] []). split; reflexivity.
Defined.

Lemma fetchTable_sheet_without_rows_witness :
  notAllowed (authenticated signedIn) = false
  ∧ sheet_to_json emptyMiddleSheet [] = Returned []
  ∧ fetchTable emptyMiddleSheet signedIn
    = mkRun (Returned tt)
        (mkWorld (mkView AUTHENTICATED (sheetEntry ("Sheet1", rowsAB)) true) false)
        [SetLoading true; SetTableData ∅; CallFetch "GET" downloadUrl;
         SetTableData (sheetEntry ("Sheet1", rowsAB));
         SetTableData (sheetEntry ("Empty", []));
         ConsoleError TypeError;
         AlertAlert "Při načítání tabulky se vyskytla chyba"
                    ("Chyba: " +:+ TypeError);
         SetLoading false].
Proof.
  split; [reflexivity|]. split; [reflexivity|].
  assert (Forall (λ nr : string * list (list (cell Z)), nr.2 ≠ [])
                 [("Sheet1", rowsAB)]) as Hrows.
  { apply Forall_cons. split; [done|apply Forall_nil_2]. }
  exact (fetchTable_sheet_without_rows Number_toString id TypeError
           emptyMiddleSheet signedIn
           (mkWorkBook [("Sheet1", rowsAB); ("Empty", []); ("Sheet3", rowsMixed)])
           [("Sheet1", rowsAB)] [("Sheet3", rowsMixed)]
           "Empty" [] [("Sheet1", rowsAB)]
           eq_refl eq_refl eq_refl eq_refl Hrows eq_refl).
Defined.


(** A session that loads a workbook whose last sheet has no row: the
    component ends unmounted, with the spinner on and the first sheet in
    [tableData], and further presses change nothing. *)
Example session_emptyLastSheet :
  session emptyLastSheet [(PressLoadTable, emptyLastSheet);
                          (PressLoadTable, oneSheet)]
  = mkWorld (mkView NOT_SUPPORTED (sheetEntry ("Sheet1", rowsAB)) true) false.
Proof. vm_compute. reflexivity. Qed.

End MoreConcrete.
